(** * Dockerfile-Generator: the project-summarization pipeline

    A shallow embedding of [read_file_content], [analyze_project_dependencies]
    and [summarize_project_structure] of [dockerfile-generator.py], with the
    parts of the Python standard library they call ([str] methods, [pathlib],
    [json.loads], [xml.etree.ElementTree]).

    Conventions.
    - A Python [str] is a Rocq [string] holding the UTF-8 encoding of the
      text.  Concatenation, equality, prefix tests and the code-point order
      used by [sorted] coincide with their byte-wise versions on UTF-8.
    - Python exceptions are values of [exn]; a computation that may raise and
      may print is a [py A] (standard output is threaded as a list of lines).
    - [json.loads] and [ET.fromstring] are library functions: the program is
      parameterised by them, and reference decoders are given for evaluation. *)

From Stdlib Require Import Ascii String.
From stdpp Require Import base option list strings sorting gmap.

(** ** Python [str] *)

Module Str.

Definition dquote : ascii := "034"%char.
Definition squote : ascii := "039"%char.
Definition newline : string := String "010"%char "".

(** Truth value of a [str]: non-empty. *)
Definition truthy (s : string) : bool :=
  match s with "" => false | _ => true end.

(** [s.startswith(p)] *)
Definition startswith (p s : string) : bool := String.prefix p s.

(** [sep.join(l)] *)
Definition join (sep : string) (l : list string) : string :=
  String.concat sep l.

(** Length in bytes of the line boundary at the head of [s], 0 if there is
    none.  The boundaries of [str.splitlines] are LF, CR, CR LF, VT, FF, FS,
    GS, RS, NEL (U+0085), LS (U+2028) and PS (U+2029). *)
Definition linebreak (s : string) : nat :=
  match s with
  | String "013" (String "010" _) => 2
  | String "010" _ | String "013" _ | String "011" _ | String "012" _
  | String "028" _ | String "029" _ | String "030" _ => 1
  | String "194" (String "133" _) => 2
  | String "226" (String "128" (String "168" _))
  | String "226" (String "128" (String "169" _)) => 3
  | _ => 0
  end%char.

(** [s.splitlines()]: [cur] is the current line, reversed; [skip] counts
    the remaining bytes of a boundary that is being consumed. *)
Fixpoint splitlines_go (cur : string) (skip : nat) (s : string) : list string :=
  match s with
  | "" => if truthy cur then [String.rev cur] else []
  | String c rest =>
      match skip with
      | S k => splitlines_go cur k rest
      | O =>
          match linebreak s with
          | O => splitlines_go (String c cur) 0 rest
          | S k => String.rev cur :: splitlines_go "" k rest
          end
      end
  end.

Definition splitlines (s : string) : list string := splitlines_go "" 0 s.

(** Length in bytes of the white-space character at the head of [s], 0 if
    there is none ([str.isspace]): TAB, LF, VT, FF, CR, FS, GS, RS, US,
    SPACE, U+0085, U+00A0, U+1680, U+2000..U+200A, U+2028, U+2029, U+202F,
    U+205F, U+3000. *)
Definition whitespace (s : string) : nat :=
  match s with
  | String "009" _ | String "010" _ | String "011" _ | String "012" _
  | String "013" _ | String "028" _ | String "029" _ | String "030" _
  | String "031" _ | String " " _ => 1
  | String "194" (String "133" _) | String "194" (String "160" _) => 2
  | String "225" (String "154" (String "128" _)) => 3
  | String "226" (String "128" (String c _)) =>
      let n := nat_of_ascii c in
      if (Nat.leb 128 n && Nat.leb n 138) || Nat.eqb n 168 || Nat.eqb n 169
         || Nat.eqb n 175
      then 3 else 0
  | String "226" (String "129" (String "159" _)) => 3
  | String "227" (String "128" (String "128" _)) => 3
  | _ => 0
  end%char.

(** [s.split()]: maximal runs of non-white-space characters. *)
Fixpoint split_go (cur : string) (skip : nat) (s : string) : list string :=
  match s with
  | "" => if truthy cur then [String.rev cur] else []
  | String c rest =>
      match skip with
      | S k => split_go cur k rest
      | O =>
          match whitespace s with
          | O => split_go (String c cur) 0 rest
          | S k =>
              if truthy cur then String.rev cur :: split_go "" k rest
              else split_go "" k rest
          end
      end
  end.

Definition split (s : string) : list string := split_go "" 0 s.

(** [s.lstrip(c)], [s.rstrip(c)] and [s.strip(c)] for a one-character
    argument: every leading (trailing) occurrence of [c] is removed. *)
Fixpoint lstrip (c : ascii) (s : string) : string :=
  match s with
  | String a rest => if Ascii.eqb a c then lstrip c rest else s
  | "" => ""
  end.

Definition rstrip (c : ascii) (s : string) : string :=
  String.rev (lstrip c (String.rev s)).

Definition strip (c : ascii) (s : string) : string := rstrip c (lstrip c s).

(** [s.rfind(".")], scanning left to right and remembering the last hit. *)
Fixpoint rfind_go (c : ascii) (pos : nat) (last : option nat) (s : string)
  : option nat :=
  match s with
  | "" => last
  | String a rest =>
      rfind_go c (S pos) (if Ascii.eqb a c then Some pos else last) rest
  end.

Definition rfind (c : ascii) (s : string) : option nat := rfind_go c 0 None s.

End Str.

(** ** Exceptions, printing *)

Inductive exn :=
  | IndexError                 (* list index out of range *)
  | KeyError (key : string)    (* missing dictionary key *)
  | AttributeError             (* the object has no such method *)
  | ValueError.                (* [relative_to] on a path outside the root *)

Inductive outcome (A : Type) :=
  | Return (a : A)
  | Raise (e : exn).
Arguments Return {A} a.
Arguments Raise {A} e.

(** A computation takes the lines printed so far and gives its outcome with
    the lines printed up to its end (or up to the exception). *)
Definition py (A : Type) : Type := list string → outcome A * list string.

Global Instance py_ret : MRet py := λ A a out, (Return a, out).
Global Instance py_bind : MBind py := λ A B f m out,
  match m out with
  | (Return a, out') => f a out'
  | (Raise e, out') => (Raise e, out')
  end.

Definition raise {A} (e : exn) : py A := λ out, (Raise e, out).
Definition print (line : string) : py unit := λ out, (Return tt, out ++ [line]).

(** [for x in l: body x] *)
Fixpoint for_each {A S} (body : A → S → py S) (l : list A) (s : S) : py S :=
  match l with
  | [] => mret s
  | x :: l' => s' ← body x s; for_each body l' s'
  end.

(** ** [pathlib] pure paths (POSIX flavour) *)

Record PurePath := { absolute : bool; parts : list string }.

Module Path.

(** [p / name] *)
Definition child (p : PurePath) (name : string) : PurePath :=
  {| absolute := absolute p; parts := parts p ++ [name] |}.

(** [str(p)] *)
Definition str (p : PurePath) : string :=
  if absolute p then "/" +:+ Str.join "/" (parts p)
  else match parts p with
       | [] => "."
       | _ => Str.join "/" (parts p)
       end.

(** [p.name] *)
Definition name (p : PurePath) : string := List.last (parts p) "".

(** [p.suffix]: the part of the name from its last dot, when that dot is
    neither the first nor the last character of the name. *)
Definition suffix (p : PurePath) : string :=
  let n := name p in
  match Str.rfind "." n with
  | Some i =>
      if Nat.ltb 0 i && Nat.ltb i (String.length n - 1)
      then String.substring i (String.length n - i) n
      else ""
  | None => ""
  end.

(** [p.parent]: the path without its last component; a path with no
    component is its own parent. *)
Definition parent (p : PurePath) : PurePath :=
  {| absolute := absolute p; parts := removelast (parts p) |}.

(** [l] without the prefix [pre], if [pre] is a prefix of [l]. *)
Fixpoint strip_prefix (pre l : list string) : option (list string) :=
  match pre, l with
  | [], _ => Some l
  | a :: pre', b :: l' => if decide (a = b) then strip_prefix pre' l' else None
  | _ :: _, [] => None
  end.

(** [p.relative_to(other)] *)
Definition relative_to (p other : PurePath) : outcome PurePath :=
  if Bool.eqb (absolute p) (absolute other) then
    match strip_prefix (parts other) (parts p) with
    | Some rest => Return {| absolute := false; parts := rest |}
    | None => Raise ValueError
    end
  else Raise ValueError.

End Path.

(** ** The file system under the scanned root *)

(** What [open(path, 'r', encoding='utf-8')] followed by [read()] does
    on a regular file: it gives the decoded text, or it raises an exception
    whose message is [e] (permission denied, I/O error, invalid UTF-8). *)
Inductive read_outcome :=
  | ReadOk (text : string)
  | ReadError (e : string).

(** A directory tree, as far as the operating system lets the program
    examine it: [stat] answers for the root and for every entry.  An entry
    is a regular file, a directory, or something else: a FIFO, a socket, a
    device, a symbolic link that leads nowhere.  A directory whose listing
    is refused, or a link to a directory, is a [Dir] without children. *)
#[warnings="-register-all"] Inductive node :=
  | File (name : string) (data : read_outcome)
  | Dir (name : string) (children : list node)
  | Other (name : string).

(** What is found at the path given to [summarize_project_structure]:
    - [NoSuchPath]: nothing is there ([stat] fails with "no such file");
    - [NotADirectory]: something that is not a directory;
    - [PermissionDenied]: a directory whose status can be read and whose
      listing is refused ([scandir] raises [PermissionError]);
    - [Listing]: a directory with the given entries. *)
Inductive root_state :=
  | NoSuchPath
  | NotADirectory
  | PermissionDenied
  | Listing (children : list node).

(** An entry yielded by [rglob]: its path, the answer of [is_file()] and,
    for a regular file, what reading it does. *)
Record entry := {
  path : PurePath;
  is_file : bool;
  data : read_outcome;
}.

Definition node_name (n : node) : string :=
  match n with File name _ | Dir name _ | Other name => name end.

(** [is_file()] is true of a regular file only. *)
Definition node_entry (dir : PurePath) (n : node) : entry :=
  match n with
  | File name d =>
      {| path := Path.child dir name; is_file := true; data := d |}
  | Dir name _ | Other name =>
      {| path := Path.child dir name; is_file := false; data := ReadError "" |}
  end.

(** [dir.rglob('*')] on a directory with the given children: the entries of
    [dir] itself, then those of each of its subdirectories, recursively. *)
Fixpoint below (dir : PurePath) (n : node) : list entry :=
  match n with
  | File _ _ | Other _ => []
  | Dir name sub =>
      let d := Path.child dir name in
      map (node_entry d) sub ++ flat_map (below d) sub
  end.

Definition walk (dir : PurePath) (children : list node) : list entry :=
  map (node_entry dir) children ++ flat_map (below dir) children.

(** [pathlib.Path(directory).rglob('*')]: [is_dir()] is false of a missing
    path and of a path that is not a directory, and [rglob] swallows the
    [PermissionError] of a refused listing: in the three cases nothing is
    yielded and nothing raised. *)
Definition rglob (directory : PurePath) (root : root_state) : list entry :=
  match root with
  | Listing children => walk directory children
  | NoSuchPath | NotADirectory | PermissionDenied => []
  end.

(** The entries of [rglob] that are directories. *)
Definition node_is_dir (n : node) : bool :=
  match n with Dir _ _ => true | _ => false end.

Fixpoint directories_below (dir : PurePath) (n : node) : list entry :=
  match n with
  | File _ _ | Other _ => []
  | Dir name sub =>
      let d := Path.child dir name in
      map (node_entry d) (filter (λ c, node_is_dir c = true) sub)
      ++ flat_map (directories_below d) sub
  end.

Definition directory_entries (directory : PurePath) (root : root_state)
  : list entry :=
  match root with
  | Listing children =>
      map (node_entry directory) (filter (λ c, node_is_dir c = true) children)
      ++ flat_map (directories_below directory) children
  | NoSuchPath | NotADirectory | PermissionDenied => []
  end.

(** ** Python dictionaries (insertion-ordered, one binding per key) *)

Fixpoint dict_get {V} (key : string) (d : list (string * V)) : option V :=
  match d with
  | [] => None
  | (k, v) :: d' => if decide (k = key) then Some v else dict_get key d'
  end.

(** [d[key] = v]: an existing key keeps its position and takes the new
    value, a new key goes last. *)
Fixpoint dict_set {V} (key : string) (v : V) (d : list (string * V))
  : list (string * V) :=
  match d with
  | [] => [(key, v)]
  | (k, w) :: d' =>
      if decide (k = key) then (k, v) :: d' else (k, w) :: dict_set key v d'
  end.

(** ** The values [json.loads] returns *)

#[warnings="-register-all"] Inductive json :=
  | JNull                                      (* None *)
  | JBool (b : bool)                           (* True, False *)
  | JNumber (lexeme : string)                  (* int or float *)
  | JString (s : string)                       (* str *)
  | JArray (items : list json)                 (* list *)
  | JObject (members : list (string * json)).  (* dict *)

(** [data.get(key, default)]: only a dict has the method. *)
Definition json_get (data : json) (key : string) (default : json)
  : outcome json :=
  match data with
  | JObject d => Return (from_option id default (dict_get key d))
  | _ => Raise AttributeError
  end.

(** [list(value.keys())]: only a dict has the method. *)
Definition json_keys (value : json) : outcome (list string) :=
  match value with
  | JObject d => Return (map fst d)
  | _ => Raise AttributeError
  end.

(** ** The elements [ET.fromstring] returns (text and tail are not used) *)

#[warnings="-register-all"] Inductive element :=
  | Element (tag : string) (attrib : list (string * string))
            (children : list element).

Definition tag_of (e : element) : string :=
  match e with Element t _ _ => t end.
Definition attrib_of (e : element) : list (string * string) :=
  match e with Element _ a _ => a end.
Definition children_of (e : element) : list element :=
  match e with Element _ _ c => c end.

(** [e.iter()]: [e] and its descendants, in document order. *)
Fixpoint iter (e : element) : list element :=
  match e with
  | Element _ _ children => e :: flat_map iter children
  end.

(** [ElementTree(root).findall(".//" + tag)]: the descendants of the root
    element with that tag, in document order; the root itself is not one. *)
Definition findall_descendants (tag : string) (root : element) : list element :=
  filter (λ e, tag_of e = tag) (flat_map iter (children_of root)).

(** [element.attrib[key]] *)
Definition attrib_item (key : string) (e : element) : outcome string :=
  match dict_get key (attrib_of e) with
  | Some v => Return v
  | None => Raise (KeyError key)
  end.

(** ** The program *)

Definition lift {A} (o : outcome A) : py A := λ out, (o, out).

(** [l[i]] *)
Definition item {A} (l : list A) (i : nat) : outcome A :=
  match l !! i with
  | Some x => Return x
  | None => Raise IndexError
  end.

(** [[f(x) for x in l]], stopping at the first exception. *)
Fixpoint comprehension {A B} (f : A → outcome B) (l : list A)
  : outcome (list B) :=
  match l with
  | [] => Return []
  | x :: l' =>
      match f x with
      | Return y =>
          match comprehension f l' with
          | Return ys => Return (y :: ys)
          | Raise e => Raise e
          end
      | Raise e => Raise e
      end
  end.

Section Program.

(** [json.loads]; [None] stands for [json.JSONDecodeError]. *)
Variable json_loads : string → option json.
(** [ET.fromstring]; [None] stands for [ET.ParseError]. *)
Variable ET_fromstring : string → option element.

Definition read_file_content (file_path : entry) : py (option string) :=
  match data file_path with
  | ReadOk text => mret (Some text)
  | ReadError e =>
      _ ← print ("Error reading file " +:+ Path.str (path file_path)
                 +:+ ": " +:+ e);
      mret None
  end.

(** [if content:] holds for a non-empty text, not for [None] or [""]. *)
Definition if_content (content : option string) : option string :=
  match content with
  | Some text => if Str.truthy text then Some text else None
  | None => None
  end.

(** The body of the loop over the lines of a Gemfile. *)
Definition gemfile_line (line : string) (dependencies : list string)
  : py (list string) :=
  if Str.startswith "gem" line then
    token ← lift (item (Str.split line) 1);
    let gem_name := Str.strip Str.squote (Str.strip Str.dquote token) in
    mret (dependencies ++ [gem_name])
  else mret dependencies.

Definition python_dependencies (content : string) : list string :=
  filter (λ line, Str.truthy line && negb (Str.startswith "#" line))
         (Str.splitlines content).

Definition analyze_project_dependencies (file_path : entry) : py string :=
  let name := Path.name (path file_path) in
  if decide (name = "package.json") then
    content ← read_file_content file_path;
    match if_content content with
    | Some content =>
        match json_loads content with
        | Some data =>
            deps ← lift (json_get data "dependencies" (JObject []));
            dependencies ← lift (json_keys deps);
            mret ("Node.js dependencies: "
                  +:+ Str.join ", " dependencies +:+ ".")
        | None => mret "Error analyzing package.json."
        end
    | None => mret ""
    end
  else if decide (name = "Gemfile") then
    content ← read_file_content file_path;
    match if_content content with
    | Some content =>
        dependencies ← for_each gemfile_line (Str.splitlines content) [];
        mret ("Ruby dependencies (Gemfile): "
              +:+ Str.join ", " dependencies +:+ ".")
    | None => mret ""
    end
  else if decide (name = "requirements.txt" ∨ name = "Pipfile") then
    content ← read_file_content file_path;
    match if_content content with
    | Some content =>
        let dependencies := python_dependencies content in
        let python_deps_desc :=
          if decide (name = "Pipfile") then "Python dependencies (Pipfile)"
          else "Python dependencies (requirements.txt)" in
        mret (python_deps_desc +:+ ": "
              +:+ Str.join ", " dependencies +:+ ".")
    | None => mret ""
    end
  else if decide (Path.suffix (path file_path) = ".csproj") then
    content ← read_file_content file_path;
    match if_content content with
    | Some content =>
        match ET_fromstring content with
        | Some root =>
            packages ← lift (comprehension (attrib_item "Include")
                               (findall_descendants "PackageReference" root));
            mret ("C# dependencies: " +:+ Str.join ", " packages +:+ ".")
        | None => mret "Error analyzing .csproj."
        end
    | None => mret ""
    end
  else mret "".

(** The body of the loop of [summarize_project_structure]; the state is
    [(dependency_summary, directory_structure)].  The entry holds what
    [is_file()] answers; the branch [else] is taken by every entry that is
    not a regular file. *)
Definition summarize_entry (directory : PurePath) (path_ : entry)
    (state : list string * gset string) : py (list string * gset string) :=
  let '(dependency_summary, directory_structure) := state in
  if is_file path_ then
    analysis_result ← analyze_project_dependencies path_;
    if Str.truthy analysis_result
    then mret (dependency_summary ++ [analysis_result], directory_structure)
    else mret (dependency_summary, directory_structure)
  else
    relative_path ← lift (Path.relative_to (path path_) directory);
    mret (dependency_summary,
          {[ Path.str (Path.parent relative_path) ]} ∪ directory_structure).

(** [sorted(directory_structure)] *)
Definition sorted (s : gset string) : list string :=
  merge_sort String.le (elements s).

Definition project_summary (structured_dirs dependencies_info : string)
  : string :=
  "Detected directories:" +:+ Str.newline +:+ structured_dirs
  +:+ Str.newline +:+ Str.newline
  +:+ "Dependencies info: " +:+ dependencies_info.

Definition summarize_project_structure (directory : PurePath)
    (root : root_state) : py string :=
  state ← for_each (summarize_entry directory) (rglob directory root) ([], ∅);
  let '(dependency_summary, directory_structure) := state in
  let structured_dirs := Str.join Str.newline (sorted directory_structure) in
  let dependencies_info := Str.join " " dependency_summary in
  mret (project_summary structured_dirs dependencies_info).

End Program.

(** ** Reference decoders

    The theorems below hold for every [json_loads] and [ET_fromstring].  The
    decoders of this part are used to run the program on concrete files. *)

Module Scan.

Definition code (c : ascii) : N := N_of_ascii c.
Definition chr (n : N) : ascii := ascii_of_N n.

Definition between (lo hi : N) (c : ascii) : bool :=
  (lo <=? code c)%N && (code c <=? hi)%N.

Definition is_digit : ascii → bool := between 48 57.

(** The longest prefix of [s] whose characters satisfy [p], and the rest. *)
Fixpoint span (p : ascii → bool) (s : string) : string * string :=
  match s with
  | String c rest =>
      if p c then let '(a, b) := span p rest in (String c a, b) else ("", s)
  | "" => ("", "")
  end.

(** [s] without the prefix [p], if it starts with it. *)
Fixpoint drop_prefix (p s : string) : option string :=
  match p, s with
  | "", _ => Some s
  | String a p', String b s' =>
      if Ascii.eqb a b then drop_prefix p' s' else None
  | String _ _, "" => None
  end.

(** What precedes and what follows the first occurrence of [pat] in [s]. *)
Fixpoint cut (pat : string) (s : string) : option (string * string) :=
  match drop_prefix pat s with
  | Some rest => Some ("", rest)
  | None =>
      match s with
      | String c s' =>
          match cut pat s' with
          | Some (a, b) => Some (String c a, b)
          | None => None
          end
      | "" => None
      end
  end.

Definition hex_value (c : ascii) : option N :=
  if is_digit c then Some (code c - 48)%N
  else if between 97 102 c then Some (code c - 87)%N
  else if between 65 70 c then Some (code c - 55)%N
  else None.

(** The value of a string of digits in the given base. *)
Fixpoint number (base : N) (acc : N) (s : string) : option N :=
  match s with
  | "" => Some acc
  | String c rest =>
      match hex_value c with
      | Some d => if (d <? base)%N then number base (acc * base + d)%N rest
                  else None
      | None => None
      end
  end.

(** The UTF-8 encoding of a code point. *)
Definition utf8 (cp : N) : string :=
  if (cp <? 128)%N then String (chr cp) ""
  else if (cp <? 2048)%N then
    String (chr (192 + cp / 64)) (String (chr (128 + cp mod 64)) "")
  else if (cp <? 65536)%N then
    String (chr (224 + cp / 4096))
      (String (chr (128 + (cp / 64) mod 64))
         (String (chr (128 + cp mod 64)) ""))
  else
    String (chr (240 + cp / 262144))
      (String (chr (128 + (cp / 4096) mod 64))
         (String (chr (128 + (cp / 64) mod 64))
            (String (chr (128 + cp mod 64)) ""))).

End Scan.

Module Json.
Import Scan.

Definition is_ws (c : ascii) : bool :=
  match c with
  | " " | "009" | "010" | "013" => true
  | _ => false
  end%char.

Definition skip_ws (s : string) : string := snd (span is_ws s).

(** Four hexadecimal digits. *)
Definition hex4 (s : string) : option (N * string) :=
  match s with
  | String a (String b (String c (String d rest))) =>
      match number 16 0 (String a (String b (String c (String d "")))) with
      | Some n => Some (n, rest)
      | None => None
      end
  | _ => None
  end.

(** After [\u]: the code point written there, a surrogate pair written as
    two escapes being one code point. *)
Definition unicode_escape (s : string) : option (N * string) :=
  match hex4 s with
  | Some (hi, rest) =>
      if (55296 <=? hi)%N && (hi <=? 56319)%N then
        match rest with
        | String "\" (String "u" rest') =>
            match hex4 rest' with
            | Some (lo, rest'') =>
                if (56320 <=? lo)%N && (lo <=? 57343)%N
                then Some (65536 + (hi - 55296) * 1024 + (lo - 56320), rest'')%N
                else Some (hi, rest)
            | None => Some (hi, rest)
            end
        | _ => Some (hi, rest)
        end
      else Some (hi, rest)
  | None => None
  end.

(** The text of a string literal, from after its opening quote; [acc] is
    the decoded text so far, reversed. *)
Fixpoint scanstring (fuel : nat) (acc : string) (s : string)
  : option (string * string) :=
  match fuel with
  | O => None
  | S fuel =>
      match s with
      | "" => None
      | String c rest =>
          if Ascii.eqb c Str.dquote then Some (String.rev acc, rest)
          else if Ascii.eqb c "\" then
            match rest with
            | String e rest' =>
                let plain (x : ascii) := scanstring fuel (String x acc) rest' in
                if Ascii.eqb e Str.dquote then plain Str.dquote
                else match e with
                     | "\" => plain "\"
                     | "/" => plain "/"
                     | "b" => plain "008"
                     | "f" => plain "012"
                     | "n" => plain "010"
                     | "r" => plain "013"
                     | "t" => plain "009"
                     | "u" =>
                         match unicode_escape rest' with
                         | Some (cp, rest'') =>
                             scanstring fuel (String.rev (utf8 cp) +:+ acc) rest''
                         | None => None
                         end
                     | _ => None
                     end%char
            | "" => None
            end
          else if (code c <? 32)%N then None
          else scanstring fuel (String c acc) rest
      end
  end.

(** The longest prefix of [s] that is a number: an optional minus sign, an
    integer part (a single 0, or digits not starting with 0), an optional
    fraction (a dot and digits) and an optional exponent (e or E, an
    optional sign, digits). *)
Definition scan_number (s : string) : option (string * string) :=
  let '(sign, s1) :=
    match s with String "-"%char r => ("-", r) | _ => ("", s) end in
  let '(int, s2) :=
    match s1 with
    | String "0"%char r => ("0", r)
    | _ => span is_digit s1
    end in
  if Str.truthy int then
    let '(frac, s3) :=
      match s2 with
      | String "."%char r =>
          let '(d, r') := span is_digit r in
          if Str.truthy d then ("." +:+ d, r') else ("", s2)
      | _ => ("", s2)
      end in
    let '(exp, s4) :=
      match s3 with
      | String e r =>
          if Ascii.eqb e "e" || Ascii.eqb e "E" then
            let '(sg, r1) :=
              match r with
              | String "-"%char r1 => ("-", r1)
              | String "+"%char r1 => ("+", r1)
              | _ => ("", r)
              end in
            let '(d, r2) := span is_digit r1 in
            if Str.truthy d then (String e (sg +:+ d), r2) else ("", s3)
          else ("", s3)
      | "" => ("", s3)
      end in
    Some (sign +:+ int +:+ frac +:+ exp, s4)
  else None.

Definition literals : list (string * json) :=
  [("null", JNull); ("true", JBool true); ("false", JBool false);
   ("NaN", JNumber "NaN"); ("Infinity", JNumber "Infinity");
   ("-Infinity", JNumber "-Infinity")].

Fixpoint scan_literal (l : list (string * json)) (s : string)
  : option (json * string) :=
  match l with
  | [] => None
  | (word, v) :: l' =>
      match drop_prefix word s with
      | Some rest => Some (v, rest)
      | None => scan_literal l' s
      end
  end.

(** One value at the head of [s]; [members] and [items] continue an
    object and an array after their first character. *)
Fixpoint value (fuel : nat) (s : string) : option (json * string) :=
  match fuel with
  | O => None
  | S fuel =>
      match s with
      | String "{" rest =>
          match skip_ws rest with
          | String "}" rest' => Some (JObject [], rest')
          | rest' => members fuel [] rest'
          end
      | String "[" rest =>
          match skip_ws rest with
          | String "]" rest' => Some (JArray [], rest')
          | rest' => items fuel [] rest'
          end
      | String c rest =>
          if Ascii.eqb c Str.dquote then
            match scanstring (String.length s) "" rest with
            | Some (text, rest') => Some (JString text, rest')
            | None => None
            end
          else
            match scan_literal literals s with
            | Some r => Some r
            | None =>
                match scan_number s with
                | Some (lexeme, rest') => Some (JNumber lexeme, rest')
                | None => None
                end
            end
      | "" => None
      end
  end
with members (fuel : nat) (acc : list (string * json)) (s : string)
  : option (json * string) :=
  match fuel with
  | O => None
  | S fuel =>
      match s with
      | String c rest =>
          if Ascii.eqb c Str.dquote then
            match scanstring (String.length s) "" rest with
            | Some (key, rest1) =>
                match skip_ws rest1 with
                | String ":" rest2 =>
                    match value fuel (skip_ws rest2) with
                    | Some (v, rest3) =>
                        let acc' := dict_set key v acc in
                        match skip_ws rest3 with
                        | String "}" rest4 => Some (JObject acc', rest4)
                        | String "," rest4 => members fuel acc' (skip_ws rest4)
                        | _ => None
                        end
                    | None => None
                    end
                | _ => None
                end
            | None => None
            end
          else None
      | "" => None
      end
  end
with items (fuel : nat) (acc : list json) (s : string)
  : option (json * string) :=
  match fuel with
  | O => None
  | S fuel =>
      match value fuel s with
      | Some (v, rest) =>
          match skip_ws rest with
          | String "]" rest' => Some (JArray (acc ++ [v]), rest')
          | String "," rest' => items fuel (acc ++ [v]) (skip_ws rest')
          | _ => None
          end
      | None => None
      end
  end.

(** [json.loads(s)]: one value, white space allowed around it. *)
Definition loads (s : string) : option json :=
  match value (S (String.length s)) (skip_ws s) with
  | Some (v, rest) =>
      match skip_ws rest with
      | "" => Some v
      | _ => None
      end
  | None => None
  end.

End Json.

(** Concrete texts are written with a backquote where the file has a double
    quote. *)
Fixpoint quoted (s : string) : string :=
  match s with
  | "" => ""
  | String c rest =>
      String (if Ascii.eqb c "`" then Str.dquote else c) (quoted rest)
  end.

Module Xml.
Import Scan.

Definition is_space (c : ascii) : bool :=
  match c with
  | " " | "009" | "010" | "013" => true
  | _ => false
  end%char.

Definition skip_space (s : string) : string := snd (span is_space s).

Definition is_name_start (c : ascii) : bool :=
  between 97 122 c || between 65 90 c || Ascii.eqb c "_" || Ascii.eqb c ":"
  || (128 <=? code c)%N.

Definition is_name_char (c : ascii) : bool :=
  is_name_start c || is_digit c || Ascii.eqb c "-" || Ascii.eqb c ".".

(** A name at the head of [s]. *)
Definition name (s : string) : option (string * string) :=
  match s with
  | String c _ => if is_name_start c then Some (span is_name_char s) else None
  | "" => None
  end.

(** The characters a document may hold. *)
Definition is_char (cp : N) : bool :=
  (cp =? 9)%N || (cp =? 10)%N || (cp =? 13)%N
  || ((32 <=? cp)%N && (cp <=? 55295)%N)
  || ((57344 <=? cp)%N && (cp <=? 65533)%N)
  || ((65536 <=? cp)%N && (cp <=? 1114111)%N).

Definition char_reference (base : N) (digits : string) : option string :=
  if Str.truthy digits then
    match number base 0 digits with
    | Some cp => if is_char cp then Some (utf8 cp) else None
    | None => None
    end
  else None.

(** After [&]: the text the reference stands for.  Without a document
    type only the five predefined entities are declared. *)
Definition reference (s : string) : option (string * string) :=
  match cut ";" s with
  | Some (body, rest) =>
      let text :=
        match body with
        | "lt" => Some "<"
        | "gt" => Some ">"
        | "amp" => Some "&"
        | "quot" => Some (String Str.dquote "")
        | "apos" => Some "'"
        | String "#" (String "x" digits) => char_reference 16 digits
        | String "#" digits => char_reference 10 digits
        | _ => None
        end in
      match text with
      | Some t => Some (t, rest)
      | None => None
      end
  | None => None
  end.

(** An attribute value, from after its opening quote [q]: references are
    replaced, white space becomes a space; [acc] is reversed. *)
Fixpoint attvalue (fuel : nat) (q : ascii) (acc : string) (s : string)
  : option (string * string) :=
  match fuel with
  | O => None
  | S fuel =>
      match s with
      | "" => None
      | String c rest =>
          if Ascii.eqb c q then Some (String.rev acc, rest)
          else if Ascii.eqb c "<" then None
          else if Ascii.eqb c "&" then
            match reference rest with
            | Some (t, rest') => attvalue fuel q (String.rev t +:+ acc) rest'
            | None => None
            end
          else if Ascii.eqb c "013" then
            match rest with
            | String "010" _ => attvalue fuel q acc rest
            | _ => attvalue fuel q (String " " acc) rest
            end
          else if is_space c then attvalue fuel q (String " " acc) rest
          else if (code c <? 32)%N then None
          else attvalue fuel q (String c acc) rest
      end
  end.

(** The attributes of a start tag, as written, up to its [>] or [/>];
    [sep] tells whether white space precedes the current position. *)
Fixpoint attributes (fuel : nat) (sep : bool) (acc : list (string * string))
    (s : string) : option (list (string * string) * string) :=
  match fuel with
  | O => None
  | S fuel =>
      match s with
      | String c rest =>
          if is_space c then attributes fuel true acc rest
          else if Ascii.eqb c ">" || Ascii.eqb c "/" then Some (acc, s)
          else if sep then
            match name s with
            | Some (n, rest1) =>
                match skip_space rest1 with
                | String "=" rest2 =>
                    match skip_space rest2 with
                    | String q rest3 =>
                        if Ascii.eqb q Str.dquote || Ascii.eqb q Str.squote then
                          match attvalue (String.length s) q "" rest3 with
                          | Some (v, rest4) =>
                              if bool_decide (n ∈ map fst acc) then None
                              else attributes fuel false (acc ++ [(n, v)]) rest4
                          | None => None
                          end
                        else None
                    | "" => None
                    end
                | _ => None
                end
            | None => None
            end
          else None
      | "" => None
      end
  end.

(** Namespaces: the prefixes in scope with their URIs; the empty prefix is
    the default namespace. *)
Definition bindings := list (string * string).

Definition declare (ns : bindings) (a : string * string) : option bindings :=
  let '(n, v) := a in
  if decide (n = "xmlns") then Some ((EmptyString, v) :: ns)
  else match drop_prefix "xmlns:" n with
       | Some p => if Str.truthy p && Str.truthy v then Some ((p, v) :: ns)
                   else None
       | None => Some ns
       end.

Fixpoint declare_all (ns : bindings) (l : list (string * string))
  : option bindings :=
  match l with
  | [] => Some ns
  | a :: l' =>
      match declare ns a with
      | Some ns' => declare_all ns' l'
      | None => None
      end
  end.

Definition is_declaration (n : string) : bool :=
  bool_decide (n = "xmlns") || Str.startswith "xmlns:" n.

Definition universal (uri local : string) : string :=
  "{" +:+ uri +:+ "}" +:+ local.

(** The name ElementTree gives to a qualified name. *)
Definition resolve (ns : bindings) (is_element : bool) (qname : string)
  : option string :=
  match cut ":" qname with
  | Some (p, local) =>
      if Str.truthy p && Str.truthy local then
        if decide (p = "xml")
        then Some (universal "http://www.w3.org/XML/1998/namespace" local)
        else match dict_get p ns with
             | Some uri => Some (universal uri local)
             | None => None
             end
      else None
  | None =>
      if is_element then
        match dict_get EmptyString ns with
        | Some uri => if Str.truthy uri then Some (universal uri qname)
                      else Some qname
        | None => Some qname
        end
      else Some qname
  end.

Fixpoint resolve_attributes (ns : bindings) (l : list (string * string))
    (acc : list (string * string)) : option (list (string * string)) :=
  match l with
  | [] => Some acc
  | (n, v) :: l' =>
      if is_declaration n then resolve_attributes ns l' acc
      else match resolve ns false n with
           | Some n' => if bool_decide (n' ∈ map fst acc) then None
                        else resolve_attributes ns l' (acc ++ [(n', v)])
           | None => None
           end
  end.

(** After [<!--]: the rest of the document after the comment. *)
Definition comment (s : string) : option string :=
  match cut "--" s with
  | Some (_, String ">" rest) => Some rest
  | _ => None
  end.

(** After [<?]: the rest of the document after the processing
    instruction. *)
Definition instruction (s : string) : option string :=
  match name s with
  | Some (target, rest) =>
      if bool_decide (String.length target = 3)
         && match target with
            | String x (String m (String l "")) =>
                (Ascii.eqb x "x" || Ascii.eqb x "X")
                && (Ascii.eqb m "m" || Ascii.eqb m "M")
                && (Ascii.eqb l "l" || Ascii.eqb l "L")
            | _ => false
            end
      then None
      else match rest with
           | String "?" (String ">" rest') => Some rest'
           | String c rest' =>
               if is_space c then
                 match cut "?>" rest' with
                 | Some (_, rest'') => Some rest''
                 | None => None
                 end
               else None
           | "" => None
           end
  | None => None
  end.

(** [parse_content] reads the children of an element up to its end tag
    and gives them with what follows [</]; [parse_element] reads an
    element from after its [<]. *)
Fixpoint parse_content (fuel : nat) (ns : bindings) (acc : list element)
    (s : string) : option (list element * string) :=
  match fuel with
  | O => None
  | S fuel =>
      match s with
      | "" => None
      | String "<" rest =>
          match rest with
          | String "/" rest' => Some (acc, rest')
          | String "?" rest' =>
              match instruction rest' with
              | Some rest'' => parse_content fuel ns acc rest''
              | None => None
              end
          | String "!" rest' =>
              match drop_prefix "--" rest', drop_prefix "[CDATA[" rest' with
              | Some body, _ =>
                  match comment body with
                  | Some rest'' => parse_content fuel ns acc rest''
                  | None => None
                  end
              | None, Some body =>
                  match cut "]]>" body with
                  | Some (_, rest'') => parse_content fuel ns acc rest''
                  | None => None
                  end
              | None, None => None
              end
          | _ =>
              match parse_element fuel ns rest with
              | Some (e, rest') => parse_content fuel ns (acc ++ [e]) rest'
              | None => None
              end
          end
      | String "&" rest =>
          match reference rest with
          | Some (_, rest') => parse_content fuel ns acc rest'
          | None => None
          end
      | String c rest =>
          if Str.startswith "]]>" s then None
          else if (code c <? 32)%N && negb (is_space c) then None
          else parse_content fuel ns acc rest
      end
  end
with parse_element (fuel : nat) (ns : bindings) (s : string)
  : option (element * string) :=
  match fuel with
  | O => None
  | S fuel =>
      match name s with
      | Some (qname, rest) =>
          match attributes (String.length rest) false [] rest with
          | Some (raw, rest1) =>
              match declare_all ns raw with
              | Some ns' =>
                  match resolve ns' true qname, resolve_attributes ns' raw [] with
                  | Some tag, Some attrib =>
                      match rest1 with
                      | String "/" (String ">" rest2) =>
                          Some (Element tag attrib [], rest2)
                      | String ">" rest2 =>
                          match parse_content fuel ns' [] rest2 with
                          | Some (children, rest3) =>
                              match drop_prefix qname rest3 with
                              | Some rest4 =>
                                  match skip_space rest4 with
                                  | String ">" rest5 =>
                                      Some (Element tag attrib children, rest5)
                                  | _ => None
                                  end
                              | None => None
                              end
                          | None => None
                          end
                      | _ => None
                      end
                  | _, _ => None
                  end
              | None => None
              end
          | None => None
          end
      | None => None
      end
  end.

(** White space, comments and processing instructions between the parts
    of a document. *)
Fixpoint misc (fuel : nat) (s : string) : option string :=
  match fuel with
  | O => None
  | S fuel =>
      match skip_space s with
      | String "<" (String "?" rest) =>
          match instruction rest with
          | Some rest' => misc fuel rest'
          | None => None
          end
      | String "<" (String "!" (String "-" (String "-" rest))) =>
          match comment rest with
          | Some rest' => misc fuel rest'
          | None => None
          end
      | s' => Some s'
      end
  end.

(** The XML declaration, when the document starts with one: its
    pseudo-attributes begin with the version. *)
Definition declaration (s : string) : option string :=
  match drop_prefix "<?xml" s with
  | Some (String c rest) =>
      if is_space c then
        match cut "?>" rest with
        | Some (body, rest') =>
            match attributes (S (S (String.length body))) true []
                             (body +:+ ">") with
            | Some ((("version", _) :: _), _) => Some rest'
            | _ => None
            end
        | None => None
        end
      else Some s
  | _ => Some s
  end.

(** [ET.fromstring(s)]: a document without document type declaration, after
    an optional byte order mark. *)
Definition fromstring (s : string) : option element :=
  let fuel := S (String.length s) in
  let s := from_option id s (drop_prefix (utf8 65279) s) in
  match declaration s with
  | Some s1 =>
      match misc fuel s1 with
      | Some (String "<" s2) =>
          match parse_element fuel [] s2 with
          | Some (root, s3) =>
              match misc fuel s3 with
              | Some "" => Some root
              | _ => None
              end
          | None => None
          end
      | _ => None
      end
  | None => None
  end.

End Xml.

(** ** What a run computes, apart from what it prints *)

Section Views.

Variable json_loads : string → option json.
Variable ET_fromstring : string → option element.

(** The value [analyze_project_dependencies] returns for a file, or the
    exception it raises. *)
Definition analysis (file_path : entry) : outcome string :=
  fst (analyze_project_dependencies json_loads ET_fromstring file_path []).

(** The fragments appended to [dependency_summary] over the entries, in
    traversal order, or the first exception. *)
Fixpoint contributions (entries : list entry) : outcome (list string) :=
  match entries with
  | [] => Return []
  | e :: rest =>
      if is_file e then
        match analysis e with
        | Return r =>
            match contributions rest with
            | Return rs => Return (if Str.truthy r then r :: rs else rs)
            | Raise x => Raise x
            end
        | Raise x => Raise x
        end
      else contributions rest
  end.

(** The strings added to [directory_structure] over the entries. *)
Definition recorded_parents (directory : PurePath) (entries : list entry)
  : list string :=
  flat_map (λ e,
    if is_file e then []
    else match Path.relative_to (path e) directory with
         | Return rel => [Path.str (Path.parent rel)]
         | Raise _ => []
         end) entries.

End Views.

(** ** The vocabulary of the statements *)

(** A computation only appends to what was printed, and its outcome does not
    depend on it. *)
Definition appends {A} (m : py A) : Prop :=
  ∀ out, m out = (fst (m []), out ++ snd (m [])).

(** An entry lies under the directory: its path is the directory's, followed
    by the components [rel]. *)
Definition under (dir : PurePath) (rel : list string) (e : entry) : Prop :=
  rel ≠ [] ∧ path e = {| absolute := absolute dir; parts := parts dir ++ rel |}.

(** The summary of a tree without entries. *)
Definition empty_summary : string :=
  "Detected directories:" +:+ Str.newline +:+ Str.newline +:+ Str.newline
  +:+ "Dependencies info: ".

(** The root is a directory that can be listed. *)
Definition is_listing (root : root_state) : bool :=
  match root with Listing _ => true | _ => false end.

(** The name the loop records for a line that starts with [gem]. *)
Definition gem_name (line : string) : string :=
  Str.strip Str.squote (Str.strip Str.dquote (default "" (Str.split line !! 1))).

(** The names recorded over the lines, when no line raises. *)
Definition gem_names (lines : list string) : list string :=
  map gem_name (filter (λ line, Str.startswith "gem" line) lines).

(** A line on which the loop does not raise. *)
Definition gem_line_ok (line : string) : Prop :=
  Str.startswith "gem" line → 2 ≤ length (Str.split line).

(** The dependency names as the specification words them: for each line
    whose first token is [gem], the second token without a single pair of
    surrounding quote characters. *)
Definition spec_unquote (token : string) : string :=
  match token with
  | String q rest =>
      if Ascii.eqb q Str.dquote || Ascii.eqb q Str.squote then
        match String.rev rest with
        | String q' middle => if Ascii.eqb q q' then String.rev middle else token
        | "" => token
        end
      else token
  | "" => ""
  end.

(** The dependency names of a Gemfile, as the specification words them. *)
Definition spec_gem_dependencies (content : string) : list string :=
  omap (λ line,
          match Str.split line with
          | first :: second :: _ =>
              if decide (first = "gem") then Some (spec_unquote second) else None
          | _ => None
          end)
       (Str.splitlines content).

(** [descendant root e]: [e] is a child of [root], or a descendant of one
    of its children. *)
Inductive descendant : element → element → Prop :=
  | descendant_child root e :
      In e (children_of root) → descendant root e
  | descendant_below root c e :
      In c (children_of root) → descendant c e → descendant root e.

(** The [Include] attribute of an element, when it has one. *)
Definition include_of (e : element) : option string :=
  dict_get "Include" (attrib_of e).

(** The files [analyze_project_dependencies] reads. *)
Definition manifest (f : entry) : Prop :=
  Path.name (path f) = "package.json" ∨ Path.name (path f) = "Gemfile"
  ∨ Path.name (path f) = "requirements.txt" ∨ Path.name (path f) = "Pipfile"
  ∨ Path.suffix (path f) = ".csproj".

(** What [read_file_content] prints when reading fails with [e]. *)
Definition read_error_message (f : entry) (e : string) : string :=
  "Error reading file " +:+ Path.str (path f) +:+ ": " +:+ e.

(** ** The generators and the entry point *)

Module Text.

(** [s.split(sep)] for a one-character separator: the pieces between the
    separators, empty pieces included; [cur] is the current piece,
    reversed. *)
Fixpoint split_on_go (sep : ascii) (cur : string) (s : string) : list string :=
  match s with
  | "" => [String.rev cur]
  | String c rest =>
      if Ascii.eqb c sep then String.rev cur :: split_on_go sep "" rest
      else split_on_go sep (String c cur) rest
  end.

Definition split_on (sep : ascii) (s : string) : list string :=
  split_on_go sep "" s.

(** [s.lstrip()]: [skip] counts the remaining bytes of a white-space
    character that is being dropped. *)
Fixpoint lstrip_go (skip : nat) (s : string) : string :=
  match s with
  | "" => ""
  | String c rest =>
      match skip with
      | S k => lstrip_go k rest
      | O =>
          match Str.whitespace s with
          | O => s
          | S k => lstrip_go k rest
          end
      end
  end.

Definition lstrip (s : string) : string := lstrip_go 0 s.

(** [s] is made of white space only. *)
Fixpoint blank_go (skip : nat) (s : string) : bool :=
  match s with
  | "" => true
  | String c rest =>
      match skip with
      | S k => blank_go k rest
      | O =>
          match Str.whitespace s with
          | O => false
          | S k => blank_go k rest
          end
      end
  end.

Definition blank (s : string) : bool := blank_go 0 s.

(** [s.rstrip()]: [s] up to the point from which only white space follows. *)
Fixpoint rstrip (s : string) : string :=
  match s with
  | "" => ""
  | String c rest => if blank s then "" else String c (rstrip rest)
  end.

(** [s.strip()] *)
Definition strip (s : string) : string := rstrip (lstrip s).

(** [c in s] for a character [c]. *)
Fixpoint contains (c : ascii) (s : string) : bool :=
  match s with
  | "" => false
  | String a rest => Ascii.eqb a c || contains c rest
  end.

End Text.

(** The keyword arguments of [client.completions.create]; the fractional
    literals are kept as written. *)
Record request := {
  model : string;
  prompt : string;
  temperature : Z;
  max_tokens : Z;
  top_p : string;
  frequency_penalty : string;
  presence_penalty : string;
}.

(** The state of a run of the script: the lines printed and the requests
    sent to the completion service. *)
Record world := { stdout : list string; requests : list request }.

Definition io (A : Type) : Type := world → outcome A * world.

Global Instance io_ret : MRet io := λ A a w, (Return a, w).
Global Instance io_bind : MBind io := λ A B f m w,
  match m w with
  | (Return a, w') => f a w'
  | (Raise e, w') => (Raise e, w')
  end.

(** A computation of the summarization part, run in the script. *)
Definition run_py {A} (m : py A) : io A := λ w,
  let '(r, out) := m (stdout w) in
  (r, {| stdout := out; requests := requests w |}).

(** The arguments [argparse] gives the script. *)
Record arguments := {
  project_dir : PurePath;
  env_file : string;
  env_vars : string;
  ecs : bool;
}.

Definition separator : string :=
  Str.newline +:+ "-----------------------------------------" +:+ Str.newline.

Section Script.

Variable json_loads : string → option json.
Variable ET_fromstring : string → option element.

(** What is found on disk at a path given as project directory. *)
Variable disk : PurePath → root_state.

(** The completion service: from the requests received before and the
    request, the [text] of each of the [choices] of the response, or the
    exception of the call. *)
Variable service : list request → request → outcome (list string).

Definition completions_create (prompt_ : string) : io (list string) := λ w,
  let req := {| model := "gpt-3.5-turbo-instruct"; prompt := prompt_;
                temperature := 0; max_tokens := 2816; top_p := "1.0";
                frequency_penalty := "0.0"; presence_penalty := "0.0" |} in
  (service (requests w) req,
   {| stdout := stdout w; requests := requests w ++ [req] |}).

Definition summarize_in_script (directory : PurePath) : io string :=
  run_py (summarize_project_structure json_loads ET_fromstring directory
            (disk directory)).

(** [response.choices[0].text.strip()] *)
Definition first_choice (choices : list string) : io string :=
  run_py (text ← lift (item choices 0); mret (Text.strip text)).

(** [print(label, text)] *)
Definition print_generated (label text : string) : io unit :=
  run_py (print (label +:+ " " +:+ text)).

(** The prompt of [generate_dockerfile_with_openai]. *)
Definition dockerfile_prompt (project_summary_ env_file_ env_vars_ : string)
  : string :=
  let prompt_dockerfile :=
    "Based on a project that " +:+ project_summary_
    +:+ ", generate an appropriate Dockerfile. Apply best practices including non-root users and multistage if possible." in
  if Str.truthy env_file_ || Str.truthy env_vars_ then
    let env_details :=
      if Str.truthy env_file_
      then "Include environment variables from " +:+ env_file_ +:+ " "
      else "" in
    let env_details :=
      env_details +:+
      (if Str.truthy env_vars_
       then "and direct environment variables " +:+ env_vars_ +:+ "."
       else "") in
    prompt_dockerfile +:+ " " +:+ env_details
  else prompt_dockerfile.

Definition generate_dockerfile_with_openai (directory : PurePath)
    (env_file_ env_vars_ : string) : io unit :=
  project_summary_ ← summarize_in_script directory;
  choices ← completions_create
              (dockerfile_prompt project_summary_ env_file_ env_vars_);
  dockerfile ← first_choice choices;
  print_generated (Str.newline +:+ "Generated Dockerfile:" +:+ Str.newline)
                  dockerfile.

Definition docker_compose_prompt (project_summary_ : string) : string :=
  "Based on a project that " +:+ project_summary_
  +:+ ", generate an appropriate docker-compose.yml. Apply best practices.".

Definition generate_docker_compose_with_openai (directory : PurePath)
    (env_file_ env_vars_ : string) : io unit :=
  project_summary_ ← summarize_in_script directory;
  choices ← completions_create (docker_compose_prompt project_summary_);
  docker_compose ← first_choice choices;
  print_generated
    (Str.newline +:+ "Generated docker-compose.yml:" +:+ Str.newline)
    docker_compose.

Definition ecs_prompt (project_summary_ : string) : string :=
  "Generate an AWS ECS Fargate task definition for a project that "
  +:+ project_summary_ +:+ ", considering best practices.".

Definition generate_ecs_task_definition_with_openai (directory : PurePath)
  : io unit :=
  project_summary_ ← summarize_in_script directory;
  choices ← completions_create (ecs_prompt project_summary_);
  task_definition ← first_choice choices;
  print_generated
    (Str.newline +:+ "Generated AWS ECS Fargate task definition:"
     +:+ Str.newline)
    task_definition.

(** [f"{var.split('=')[0]} for use within the container"] *)
Definition env_var_formatted (var : string) : outcome string :=
  match item (Text.split_on "=" var) 0 with
  | Return key => Return (key +:+ " for use within the container")
  | Raise e => Raise e
  end.

(** The text [env_details] of the entry point, built when one of the two
    options is given. *)
Definition env_details_of (env_file_ env_vars_ : string) : outcome string :=
  let env_details := "" in
  let env_details :=
    if Str.truthy env_file_
    then env_details +:+ "Add the file " +:+ env_file_
         +:+ " to the root of the app container, preserving its name. "
    else env_details in
  if Str.truthy env_vars_ then
    let vars_list := Text.split_on "," env_vars_ in
    match comprehension env_var_formatted vars_list with
    | Return formatted =>
        Return (env_details +:+ "Include environment variables: "
                +:+ Str.join ", " formatted +:+ ".")
    | Raise e => Raise e
    end
  else Return env_details.

(** The body of [if __name__ == "__main__":]. *)
Definition main (args : arguments) : io unit :=
  _ ← (if Str.truthy (env_file args) || Str.truthy (env_vars args) then
         env_details ← run_py (lift (env_details_of (env_file args)
                                       (env_vars args)));
         _ ← run_py (print "Including environment configuration:");
         run_py (print env_details)
       else mret tt);
  _ ← generate_dockerfile_with_openai (project_dir args) (env_file args)
        (env_vars args);
  _ ← run_py (print separator);
  _ ← generate_docker_compose_with_openai (project_dir args) (env_file args)
        (env_vars args);
  if ecs args then
    _ ← run_py (print separator);
    generate_ecs_task_definition_with_openai (project_dir args)
  else mret tt.

End Script.

(** ** More vocabulary *)

(** The lines the summarization prints over the entries: one for each
    regular manifest file that cannot be read. *)
Definition read_error_lines (entries : list entry) : list string :=
  flat_map (λ e,
    if is_file e then
      match data e with
      | ReadError x =>
          if decide (manifest e) then [read_error_message e x] else []
      | ReadOk _ => []
      end
    else []) entries.

(** The regular files among the entries. *)
Definition regular_files (entries : list entry) : list entry :=
  filter (λ e, is_file e = true) entries.

(** The text a [KEY=VALUE] pair stands for in [--env-vars]. *)
Definition assignment (kv : string * string) : string :=
  fst kv +:+ "=" +:+ snd kv.

(** A computation that prints nothing. *)
Definition quiet {A} (m : py A) : Prop := ∀ out, snd (m out) = out.

(** The text of the "Detected directories:" block for what is found at a
    directory. *)
Definition directory_block (directory : PurePath) (root : root_state) : string :=
  Str.join Str.newline
    (sorted (list_to_set (recorded_parents directory (rglob directory root)))).

(** The value is a dict. *)
Definition is_object (value : json) : bool :=
  match value with JObject _ => true | _ => false end.

(** The request [client.completions.create] sends for a prompt. *)
Definition completion_request (prompt_ : string) : request :=
  {| model := "gpt-3.5-turbo-instruct"; prompt := prompt_;
     temperature := 0; max_tokens := 2816; top_p := "1.0";
     frequency_penalty := "0.0"; presence_penalty := "0.0" |}.

(** The key of a variable of [--env-vars]: what precedes its first [=]. *)
Definition env_var_key (var : string) : string :=
  default "" (head (Text.split_on "=" var)).

(** The text printed for the environment options. *)
Definition env_details_text (env_file_ env_vars_ : string) : string :=
  (if Str.truthy env_file_
   then "Add the file " +:+ env_file_
        +:+ " to the root of the app container, preserving its name. "
   else "")
  +:+ (if Str.truthy env_vars_
       then "Include environment variables: "
            +:+ Str.join ", "
                  (map (λ var, env_var_key var +:+ " for use within the container")
                       (Text.split_on "," env_vars_))
            +:+ "."
       else "").

(** The lines the entry point prints before the first generator runs. *)
Definition banner (args : arguments) : list string :=
  if Str.truthy (env_file args) || Str.truthy (env_vars args)
  then ["Including environment configuration:";
        env_details_text (env_file args) (env_vars args)]
  else [].

(** The line a generator prints for the first choice of a response. *)
Definition generated_line (label choice : string) : string :=
  (Str.newline +:+ label +:+ Str.newline) +:+ " " +:+ Text.strip choice.

Section ScriptViews.

Variable json_loads : string → option json.
Variable ET_fromstring : string → option element.
Variable disk : PurePath → root_state.

(** The summary of the project directory, or the exception of the
    summarization, and the lines one summarization prints. *)
Definition summary_of (directory : PurePath) : outcome string :=
  fst (summarize_project_structure json_loads ET_fromstring directory
         (disk directory) []).

Definition scan_lines (directory : PurePath) : list string :=
  snd (summarize_project_structure json_loads ET_fromstring directory
         (disk directory) []).

End ScriptViews.

(** The same entry of a tree, seen from the root path [d] and from the root
    path [d']. *)
Definition relocated (d d' : PurePath) (e e' : entry) : Prop :=
  is_file e = is_file e' ∧ data e = data e'
  ∧ ∃ rel, under d rel e ∧ under d' rel e'.

(** * Properties *)

(** ** [str] methods on examples *)

Example splitlines_ex :
  Str.splitlines ("a" +:+ Str.newline +:+ Str.newline +:+ "b" +:+ Str.newline)
  = ["a"; ""; "b"].
Proof. reflexivity. Qed.

Example split_ex : Str.split "  gem   'pg'  " = ["gem"; "'pg'"].
Proof. reflexivity. Qed.

(** ** Computations *)

Lemma appends_ret {A} (a : A) : appends (mret a).
Proof. intros out. cbn. by rewrite app_nil_r. Qed.

Lemma appends_raise {A} (e : exn) : appends (@raise A e).
Proof. intros out. cbn. by rewrite app_nil_r. Qed.

Lemma appends_lift {A} (o : outcome A) : appends (lift o).
Proof. intros out. cbn. by rewrite app_nil_r. Qed.

Lemma appends_print line : appends (print line).
Proof. intros out. reflexivity. Qed.

Lemma appends_bind {A B} (m : py A) (f : A → py B) :
  appends m → (∀ a, appends (f a)) → appends (m ≫= f).
Proof.
  intros Hm Hf out. unfold mbind, py_bind.
  rewrite (Hm out). destruct (m []) as [[a|e] o]; cbn.
  - rewrite (Hf a (out ++ o)), (Hf a o). cbn. by rewrite app_assoc.
  - reflexivity.
Qed.

Lemma appends_for_each {A S} (body : A → S → py S) l :
  (∀ x s, appends (body x s)) → ∀ s, appends (for_each body l s).
Proof.
  intros Hb. induction l as [|x l IH]; intros s; cbn.
  - apply appends_ret.
  - apply appends_bind; auto.
Qed.

Lemma bind_outcome {A B} (m : py A) (f : A → py B) out :
  appends m →
  fst ((m ≫= f) out) =
    match fst (m []) with
    | Return a => fst (f a (out ++ snd (m [])))
    | Raise e => Raise e
    end.
Proof.
  intros Hm. unfold mbind, py_bind. rewrite (Hm out).
  by destruct (m []) as [[a|e] o].
Qed.

Lemma for_each_app {A S} (body : A → S → py S) l1 l2 s out :
  for_each body (l1 ++ l2) s out =
    (s' ← for_each body l1 s; for_each body l2 s') out.
Proof.
  revert s out. induction l1 as [|x l1 IH]; intros s out; cbn.
  - reflexivity.
  - unfold mbind, py_bind in *. destruct (body x s out) as [[s'|e] o]; auto.
Qed.

Create HintDb py.

Global Hint Resolve appends_ret appends_raise appends_lift appends_print
  appends_bind appends_for_each : py.

Section ProgramFacts.

Variable json_loads : string → option json.
Variable ET_fromstring : string → option element.

Local Abbreviation analyze := (analyze_project_dependencies json_loads ET_fromstring).
Local Abbreviation summarize := (summarize_project_structure json_loads ET_fromstring).

Lemma appends_read f : appends (read_file_content f).
Proof. unfold read_file_content. destruct (data f); auto with py. Qed.

Lemma appends_gemfile_line line deps : appends (gemfile_line line deps).
Proof. unfold gemfile_line. case_match; auto with py. Qed.

Lemma appends_analyze f : appends (analyze f).
Proof.
  unfold analyze_project_dependencies.
  repeat case_decide;
    try (apply appends_bind; [apply appends_read|intros c]);
    repeat case_match;
    auto 8 using appends_gemfile_line with py.
Qed.

Lemma appends_summarize_entry d e st :
  appends (summarize_entry json_loads ET_fromstring d e st).
Proof.
  unfold summarize_entry. destruct st as [deps dirs].
  destruct (is_file e).
  - apply appends_bind; [apply appends_analyze|].
    intros r. case_match; auto with py.
  - auto with py.
Qed.

End ProgramFacts.

(** ** Paths and traversal *)

Lemma node_induction (P : node → Prop) :
  (∀ name d, P (File name d)) →
  (∀ name children, Forall P children → P (Dir name children)) →
  (∀ name, P (Other name)) →
  ∀ n, P n.
Proof.
  intros HFile HDir HOther. fix IH 1. intros [name d|name children|name].
  - apply HFile.
  - apply HDir. induction children as [|c children IHc]; constructor.
    + apply IH.
    + apply IHc.
  - apply HOther.
Qed.

Lemma strip_prefix_app pre rest : Path.strip_prefix pre (pre ++ rest) = Some rest.
Proof. induction pre as [|a pre IH]; cbn; [done|]. by rewrite decide_True. Qed.

Lemma relative_to_under dir rel :
  Path.relative_to {| absolute := absolute dir; parts := parts dir ++ rel |} dir
  = Return {| absolute := false; parts := rel |}.
Proof.
  unfold Path.relative_to. cbn.
  rewrite (proj2 (Bool.eqb_true_iff _ _) eq_refl).
  by rewrite strip_prefix_app.
Qed.

Lemma node_entry_under dir n : under dir [node_name n] (node_entry dir n).
Proof. split; [done|]. by destruct n. Qed.

Lemma under_child dir name rel e :
  under (Path.child dir name) rel e → under dir (name :: rel) e.
Proof.
  intros [Hne He]. split; [done|]. rewrite He. cbn. by rewrite <- app_assoc.
Qed.

Lemma below_under n : ∀ dir e, In e (below dir n) → ∃ rel, under dir rel e.
Proof.
  induction n as [name d|name children IH|name] using node_induction;
    intros dir e He; cbn in He; [done| |done].
  apply in_app_or in He as [He|He].
  - apply in_map_iff in He as (c & <- & _).
    eexists. apply under_child, node_entry_under.
  - apply in_flat_map in He as (c & Hc & He).
    rewrite Forall_forall in IH.
    destruct (IH c (proj2 (list_elem_of_In _ _) Hc) _ _ He) as [rel Hrel].
    eexists. apply under_child, Hrel.
Qed.

Lemma rglob_under directory root e :
  In e (rglob directory root) → ∃ rel, under directory rel e.
Proof.
  destruct root as [| | |children]; cbn; try done.
  unfold walk. intros He. apply in_app_or in He as [He|He].
  - apply in_map_iff in He as (c & <- & _).
    eexists. apply node_entry_under.
  - apply in_flat_map in He as (c & _ & He). by eapply below_under.
Qed.

(** [relative_to] does not raise on what [rglob] yields. *)
Lemma rglob_relative_to directory root e :
  In e (rglob directory root) →
  ∃ rel, rel ≠ [] ∧
    Path.relative_to (path e) directory
    = Return {| absolute := false; parts := rel |}.
Proof.
  intros He. destruct (rglob_under _ _ _ He) as (rel & Hne & ->).
  exists rel. split; [done|]. apply relative_to_under.
Qed.

(** ** [sorted] *)

Lemma sorted_elem_of (s : gset string) x : x ∈ sorted s ↔ x ∈ s.
Proof.
  unfold sorted. rewrite merge_sort_Permutation. apply elem_of_elements.
Qed.

Lemma sorted_NoDup (s : gset string) : NoDup (sorted s).
Proof.
  unfold sorted. rewrite merge_sort_Permutation. apply NoDup_elements.
Qed.

Lemma sorted_StronglySorted (s : gset string) :
  StronglySorted String.le (sorted s).
Proof. apply StronglySorted_merge_sort; apply _. Qed.

(** ** The loop of [summarize_project_structure] *)

Section Loop.

Variable json_loads : string → option json.
Variable ET_fromstring : string → option element.

Local Abbreviation analyze := (analyze_project_dependencies json_loads ET_fromstring).
Local Abbreviation summarize := (summarize_project_structure json_loads ET_fromstring).
Local Abbreviation step := (summarize_entry json_loads ET_fromstring).
Local Abbreviation contribs := (contributions json_loads ET_fromstring).
Local Abbreviation result_of := (analysis json_loads ET_fromstring).

Lemma summarize_entry_outcome d e deps dirs out :
  fst (step d e (deps, dirs) out) =
    if is_file e then
      match result_of e with
      | Return r => Return (if Str.truthy r then deps ++ [r] else deps, dirs)
      | Raise x => Raise x
      end
    else
      match Path.relative_to (path e) d with
      | Return rel => Return (deps, {[ Path.str (Path.parent rel) ]} ∪ dirs)
      | Raise x => Raise x
      end.
Proof.
  unfold summarize_entry. destruct (is_file e).
  - rewrite bind_outcome by apply appends_analyze.
    fold (result_of e). destruct (result_of e) as [r|x]; [|done].
    by destruct (Str.truthy r).
  - unfold mbind, py_bind, lift.
    by destruct (Path.relative_to (path e) d).
Qed.

Lemma summarize_loop d entries : ∀ deps dirs out,
  (∀ e, In e entries → ∃ rel, Path.relative_to (path e) d = Return rel) →
  fst (for_each (step d) entries (deps, dirs) out) =
    match contribs entries with
    | Return cs =>
        Return (deps ++ cs, list_to_set (recorded_parents d entries) ∪ dirs)
    | Raise x => Raise x
    end.
Proof.
  induction entries as [|e entries IH]; intros deps dirs out Hrel.
  - cbn. rewrite app_nil_r. f_equal. f_equal. symmetry. apply union_empty_l_L.
  - cbn [for_each].
    rewrite bind_outcome by apply appends_summarize_entry.
    rewrite summarize_entry_outcome. cbn [contributions recorded_parents flat_map].
    destruct (is_file e) eqn:Hfile.
    + destruct (result_of e) as [r|x]; [|done].
      rewrite IH by (intros; apply Hrel; by right).
      destruct (contribs entries) as [cs|x]; [|done].
      f_equal. f_equal. destruct (Str.truthy r); [|done].
      by rewrite <- app_assoc.
    + destruct (Hrel e (or_introl eq_refl)) as [rel ->].
      rewrite IH by (intros; apply Hrel; by right).
      destruct (contribs entries) as [cs|x]; [|done].
      f_equal. f_equal.
      change (flat_map ?f entries) with (recorded_parents d entries).
      cbn [app list_to_set].
      rewrite (assoc_L (∪)). f_equal. apply (comm_L (∪)).
Qed.

(** What [summarize_project_structure] returns or raises. *)
Lemma summarize_outcome d root out :
  fst (summarize d root out) =
    match contribs (rglob d root) with
    | Return cs =>
        Return (project_summary
                  (Str.join Str.newline
                     (sorted (list_to_set (recorded_parents d (rglob d root)))))
                  (Str.join " " cs))
    | Raise x => Raise x
    end.
Proof.
  unfold summarize_project_structure.
  rewrite bind_outcome
    by (apply appends_for_each; intros; apply appends_summarize_entry).
  rewrite summarize_loop.
  - destruct (contribs (rglob d root)) as [cs|x]; [|done].
    cbn. by rewrite union_empty_r_L.
  - intros e He. destruct (rglob_relative_to _ _ _ He) as (rel & _ & ->). eauto.
Qed.

Lemma contributions_raise entries x :
  contribs entries = Raise x →
  ∃ f, In f entries ∧ is_file f = true ∧ result_of f = Raise x.
Proof.
  induction entries as [|e entries IH]; cbn; [done|].
  destruct (is_file e) eqn:Hfile.
  - destruct (result_of e) as [r|y] eqn:Hr.
    + destruct (contribs entries) as [cs|y]; [done|].
      intros [= ->]. destruct IH as (f & ? & ? & ?); eauto.
    + intros [= ->]. eauto.
  - intros H. destruct (IH H) as (f & ? & ? & ?); eauto.
Qed.

Lemma contributions_app l1 l2 :
  contribs (l1 ++ l2) =
    match contribs l1 with
    | Return a =>
        match contribs l2 with
        | Return b => Return (a ++ b)
        | Raise x => Raise x
        end
    | Raise x => Raise x
    end.
Proof.
  induction l1 as [|e l1 IH]; cbn.
  - by destruct (contribs l2).
  - destruct (is_file e); [|done].
    destruct (result_of e) as [r|x]; [|done]. rewrite IH.
    destruct (contribs l1) as [a|x]; [|done].
    destruct (contribs l2) as [b|x]; [|done].
    by destruct (Str.truthy r).
Qed.

Lemma recorded_parents_elem_of d entries s :
  s ∈ recorded_parents d entries ↔
  ∃ e rel, In e entries ∧ is_file e = false
    ∧ Path.relative_to (path e) d = Return rel
    ∧ s = Path.str (Path.parent rel).
Proof.
  unfold recorded_parents. rewrite list_elem_of_In, in_flat_map. split.
  - intros (e & He & Hs). destruct (is_file e) eqn:Hfile; [done|].
    destruct (Path.relative_to (path e) d) as [rel|] eqn:Hrel; [|done].
    destruct Hs as [<-|[]]. eauto 10.
  - intros (e & rel & He & Hfile & Hrel & ->). exists e. split; [done|].
    rewrite Hfile, Hrel. by left.
Qed.

End Loop.

(** * The claims *)

(** A run on a small project: [b] holds no directory and is not listed, [.]
    stands for the root, which holds [src], [b] and [a]. *)
Example summarize_example :
  summarize_project_structure Json.loads Xml.fromstring
    {| absolute := false; parts := ["proj"] |}
    (Listing
       [Dir "src" [File "main.py" (ReadOk "print(1)"); Dir "pkg" [Dir "deep" []]];
        File "requirements.txt" (ReadOk ("flask" +:+ Str.newline +:+ "requests"));
        Dir "b" [File "Gemfile" (ReadOk "gem 'pg'")];
        Dir "a" [Dir "z" []; File "notes.txt" (ReadError "[Errno 5]")]]) []
  = (Return ("Detected directories:" +:+ Str.newline
             +:+ "." +:+ Str.newline +:+ "a" +:+ Str.newline
             +:+ "src" +:+ Str.newline +:+ "src/pkg"
             +:+ Str.newline +:+ Str.newline +:+ "Dependencies info: "
             +:+ "Python dependencies (requirements.txt): flask, requests. "
             +:+ "Ruby dependencies (Gemfile): pg."), []).
Proof. vm_compute. reflexivity. Qed.

Lemma parent_line rel :
  Path.str (Path.parent {| absolute := false; parts := rel |})
  = match removelast rel with [] => "." | init => Str.join "/" init end.
Proof. unfold Path.str, Path.parent. cbn. by destruct (removelast rel). Qed.

Lemma directories_below_below n : ∀ dir e,
  In e (directories_below dir n) → In e (below dir n) ∧ is_file e = false.
Proof.
  induction n as [name d|name children IH|name] using node_induction;
    intros dir e He; cbn in He; [done| |done].
  cbn [below]. rewrite in_app_iff. apply in_app_or in He as [He|He].
  - apply in_map_iff in He as (c & <- & Hc).
    apply list_elem_of_In, list_elem_of_filter in Hc as [Hdir Hc].
    split; [|by destruct c].
    left. apply in_map. by apply list_elem_of_In.
  - apply in_flat_map in He as (c & Hc & He).
    rewrite Forall_forall in IH.
    destruct (IH c (proj2 (list_elem_of_In _ _) Hc) _ _ He) as [Hin Hfile].
    split; [|done]. right. apply in_flat_map. eauto.
Qed.

Lemma directory_entries_rglob directory root e :
  In e (directory_entries directory root) →
  In e (rglob directory root) ∧ is_file e = false.
Proof.
  destruct root as [| | |children]; cbn; try done.
  unfold walk. intros He. rewrite in_app_iff.
  apply in_app_or in He as [He|He].
  - apply in_map_iff in He as (c & <- & Hc).
    apply list_elem_of_In, list_elem_of_filter in Hc as [Hdir Hc].
    split; [|by destruct c].
    left. apply in_map. by apply list_elem_of_In.
  - apply in_flat_map in He as (c & Hc & He).
    destruct (directories_below_below _ _ _ He) as [Hin Hfile].
    split; [|done]. right. apply in_flat_map. eauto.
Qed.

(** C1, as stated, fails: the parent is recorded for every entry that is not
    a regular file, a directory or not.  In a tree whose directory [run]
    holds a socket and no directory, the only directory entry is [run], whose
    parent is the root, and the block has the two lines [.] and [run]. *)
Lemma socket_entry_counterexample :
  let directory := {| absolute := false; parts := ["srv"] |} in
  let root := Listing [Dir "run" [Other "app.sock"]] in
  map (λ e, Path.str (path e)) (directory_entries directory root) = ["srv/run"]
  ∧ recorded_parents directory (directory_entries directory root) = ["."]
  ∧ summarize_project_structure Json.loads Xml.fromstring directory root []
    = (Return ("Detected directories:" +:+ Str.newline
               +:+ "." +:+ Str.newline +:+ "run"
               +:+ Str.newline +:+ Str.newline +:+ "Dependencies info: "), [])
  ∧ ¬ (∀ root', ∃ dependencies_info,
         fst (summarize_project_structure Json.loads Xml.fromstring
                directory root' [])
         = Return ("Detected directories:" +:+ Str.newline
                   +:+ Str.join Str.newline
                         (sorted (list_to_set
                            (recorded_parents directory
                               (directory_entries directory root'))))
                   +:+ Str.newline +:+ Str.newline
                   +:+ "Dependencies info: " +:+ dependencies_info)).
Proof.
  intros directory root.
  split; [reflexivity|]. split; [reflexivity|]. split; [vm_compute; reflexivity|].
  intros H. destruct (H root) as [info Hinfo].
  vm_compute in Hinfo. discriminate Hinfo.
Qed.

(** C1, amended. For every directory tree, the lines of the "Detected
    directories:" block of the summary are distinct, sorted in the
    lexicographic order of strings and joined with newlines, and they are
    exactly the parents of the root-relative paths of the entries met during
    the traversal that are not regular files (directories, and also sockets,
    FIFOs, links that lead nowhere): for an entry whose path is the root
    followed by the components [rel], the line is [rel] without its last
    component, joined with [/], and [.] when nothing is left.  The parent of
    every directory entry is among the lines, not the directory itself.  The
    summary is rendered unless the extraction of some regular file raises. *)
Theorem summarize_directory_block json_loads ET_fromstring directory root out :
  let entries := rglob directory root in
  ∃ block_lines : list string,
    StronglySorted String.le block_lines ∧ NoDup block_lines ∧
    (∀ s, s ∈ block_lines ↔
       ∃ e rel, In e entries ∧ is_file e = false
         ∧ rel ≠ []
         ∧ path e = {| absolute := absolute directory;
                       parts := parts directory ++ rel |}
         ∧ Path.relative_to (path e) directory
           = Return {| absolute := false; parts := rel |}
         ∧ s = match removelast rel with
               | [] => "."
               | init => Str.join "/" init
               end) ∧
    (∀ e, In e entries → is_file e = false →
       ∃ rel, path e = {| absolute := absolute directory;
                          parts := parts directory ++ rel |}
         ∧ match removelast rel with
           | [] => "."
           | init => Str.join "/" init
           end ∈ block_lines) ∧
    (∀ e, In e (directory_entries directory root) →
       In e entries ∧ is_file e = false) ∧
    match summarize_project_structure json_loads ET_fromstring directory root out with
    | (Return text, _) =>
        ∃ dependencies_info,
          text = "Detected directories:" +:+ Str.newline
                 +:+ Str.join Str.newline block_lines
                 +:+ Str.newline +:+ Str.newline
                 +:+ "Dependencies info: " +:+ dependencies_info
    | (Raise x, _) =>
        ∃ f, In f entries ∧ is_file f = true
          ∧ analysis json_loads ET_fromstring f = Raise x
    end.
Proof.
  intros entries.
  set (recorded := list_to_set (recorded_parents directory entries) : gset string).
  assert (Hmem : ∀ s, s ∈ sorted recorded ↔
            ∃ e rel, In e entries ∧ is_file e = false
              ∧ rel ≠ []
              ∧ path e = {| absolute := absolute directory;
                            parts := parts directory ++ rel |}
              ∧ Path.relative_to (path e) directory
                = Return {| absolute := false; parts := rel |}
              ∧ s = match removelast rel with
                    | [] => "."
                    | init => Str.join "/" init
                    end).
  { intros s. rewrite sorted_elem_of. unfold recorded.
    rewrite elem_of_list_to_set, recorded_parents_elem_of. split.
    - intros (e & rel0 & He & Hfile & Hrel0 & ->).
      destruct (rglob_under _ _ _ He) as (rel & Hne & Hpath).
      exists e, rel. rewrite Hpath, relative_to_under in Hrel0.
      injection Hrel0 as <-. rewrite parent_line.
      repeat split; try done. rewrite Hpath. apply relative_to_under.
    - intros (e & rel & He & Hfile & Hne & Hpath & Hrel & ->).
      exists e, {| absolute := false; parts := rel |}.
      by rewrite parent_line. }
  exists (sorted recorded).
  split; [apply sorted_StronglySorted|].
  split; [apply sorted_NoDup|].
  split; [exact Hmem|].
  split; [|split].
  - intros e He Hfile.
    destruct (rglob_under _ _ _ He) as (rel & Hne & Hpath).
    exists rel. split; [done|]. apply Hmem. exists e, rel.
    repeat split; try done. rewrite Hpath. apply relative_to_under.
  - apply directory_entries_rglob.
  - pose proof (summarize_outcome json_loads ET_fromstring directory root out)
      as Hout.
    destruct (summarize_project_structure _ _ _ _ _) as [[text|x] out'];
      cbn in Hout; fold entries in Hout;
      destruct (contributions _ _ entries) as [cs|y] eqn:Hcs; try done.
    + injection Hout as ->. by eexists.
    + injection Hout as ->. by apply contributions_raise.
Qed.

(** C2, as stated, fails: for a root that does not exist
    [summarize_project_structure] raises nothing and returns the summary of
    an empty tree. *)
Lemma missing_root_returns_empty_summary :
  let directory := {| absolute := true; parts := ["no"; "such"; "dir"] |} in
  summarize_project_structure Json.loads Xml.fromstring directory NoSuchPath []
  = (Return empty_summary, [])
  ∧ ¬ (∀ root, is_listing root = false →
         ∃ x out, summarize_project_structure Json.loads Xml.fromstring
                    directory root [] = (Raise x, out)).
Proof.
  split; [reflexivity|].
  intros H. destruct (H NoSuchPath eq_refl) as (x & out & Heq).
  discriminate Heq.
Qed.

(** C2, amended. For every root path at which nothing is found, at which
    something that is not a directory is found, or at which a directory is
    found whose listing is refused, the traversal yields no entry and
    [summarize_project_structure] raises nothing: it returns the summary of
    an empty tree and prints nothing. *)
Theorem summarize_root_failure json_loads ET_fromstring directory root out :
  root = NoSuchPath ∨ root = NotADirectory ∨ root = PermissionDenied →
  rglob directory root = []
  ∧ summarize_project_structure json_loads ET_fromstring directory root out
    = (Return ("Detected directories:" +:+ Str.newline +:+ Str.newline
               +:+ Str.newline +:+ "Dependencies info: "), out).
Proof.
  intros Hroot.
  assert (Hnone : rglob directory root = [])
    by (destruct Hroot as [->|[->| ->]]; reflexivity).
  split; [exact Hnone|].
  unfold summarize_project_structure. rewrite Hnone. reflexivity.
Qed.

Lemma summarize_root_failure_witness :
  summarize_project_structure Json.loads Xml.fromstring
    {| absolute := false; parts := ["missing"] |} NoSuchPath []
  = (Return empty_summary, []).
Proof.
  apply (summarize_root_failure Json.loads Xml.fromstring
           {| absolute := false; parts := ["missing"] |} NoSuchPath []).
  by left.
Defined.

(** ** Reading and the [if content:] guard *)

Lemma read_ok f text out :
  data f = ReadOk text → read_file_content f out = (Return (Some text), out).
Proof. intros H. unfold read_file_content. by rewrite H. Qed.

Lemma read_error f e out :
  data f = ReadError e →
  read_file_content f out =
    (Return None,
     out ++ ["Error reading file " +:+ Path.str (path f) +:+ ": " +:+ e]).
Proof. intros H. unfold read_file_content. by rewrite H. Qed.

Lemma if_content_nonempty text : text ≠ "" → if_content (Some text) = Some text.
Proof. by destruct text. Qed.

(** Unfolds the sequencing of a run whose steps are known. *)
Ltac run :=
  unfold mbind, py_bind, mret, py_ret, lift, raise; cbn beta iota.

(** The branch of [analyze_project_dependencies] a file name selects. *)
Ltac branch Hname :=
  unfold analyze_project_dependencies; rewrite ?Hname;
  repeat (first [ rewrite decide_True by (auto; done)
                | rewrite decide_False by (intuition discriminate) ]).

(** C3, as stated, fails: the empty text is not valid JSON, and for an empty
    [package.json] the extraction returns the empty string, not the error
    sentence. *)
Lemma empty_package_json_counterexample :
  let f := {| path := {| absolute := false; parts := ["app"; "package.json"] |};
              is_file := true; data := ReadOk "" |} in
  Json.loads "" = None
  ∧ analyze_project_dependencies Json.loads Xml.fromstring f [] = (Return "", [])
  ∧ ¬ (∀ g text, Path.name (path g) = "package.json" → data g = ReadOk text →
         Json.loads text = None →
         fst (analyze_project_dependencies Json.loads Xml.fromstring g [])
         = Return "Error analyzing package.json.").
Proof.
  intros f. split; [reflexivity|]. split; [reflexivity|].
  intros H. specialize (H f "" eq_refl eq_refl eq_refl). discriminate H.
Qed.

(** C3, amended. For every regular file named [package.json] whose content is
    read, is not empty and is not valid JSON, the extraction returns exactly
    "Error analyzing package.json."; when such a file is met during
    summarization, the sentence is one fragment of the dependencies line and
    the fragments of the entries before and after it are there too, in
    traversal order. *)
Theorem malformed_package_json json_loads ET_fromstring f text out :
  is_file f = true →
  Path.name (path f) = "package.json" →
  data f = ReadOk text →
  text ≠ "" →
  json_loads text = None →
  analyze_project_dependencies json_loads ET_fromstring f out
  = (Return "Error analyzing package.json.", out)
  ∧ ∀ directory root before after cs1 cs2,
      rglob directory root = before ++ f :: after →
      contributions json_loads ET_fromstring before = Return cs1 →
      contributions json_loads ET_fromstring after = Return cs2 →
      ∃ structured_dirs,
        fst (summarize_project_structure json_loads ET_fromstring
               directory root out)
        = Return (project_summary structured_dirs
                    (Str.join " "
                       (cs1 ++ "Error analyzing package.json." :: cs2))).
Proof.
  intros Hfile Hname Hdata Hne Hjson.
  assert (Hrun : ∀ o, analyze_project_dependencies json_loads ET_fromstring f o
                      = (Return "Error analyzing package.json.", o)).
  { intros o. branch Hname. run.
    rewrite (read_ok _ _ _ Hdata), (if_content_nonempty _ Hne), Hjson.
    reflexivity. }
  split; [apply Hrun|].
  intros directory root before after cs1 cs2 Hentries Hbefore Hafter.
  eexists. rewrite summarize_outcome, Hentries, contributions_app, Hbefore.
  cbn [contributions]. rewrite Hfile. unfold analysis. rewrite Hrun, Hafter.
  reflexivity.
Qed.

Lemma malformed_package_json_witness :
  let f := {| path := {| absolute := false; parts := ["app"; "package.json"] |};
              is_file := true; data := ReadOk "{oops" |} in
  let root := Listing [File "package.json" (ReadOk "{oops");
                       File "requirements.txt" (ReadOk "flask")] in
  analyze_project_dependencies Json.loads Xml.fromstring f []
  = (Return "Error analyzing package.json.", [])
  ∧ ∃ structured_dirs,
      fst (summarize_project_structure Json.loads Xml.fromstring
             {| absolute := false; parts := ["app"] |} root [])
      = Return (project_summary structured_dirs
                  ("Error analyzing package.json. " +:+
                   "Python dependencies (requirements.txt): flask.")).
Proof.
  intros f root.
  assert (Hne : "{oops" ≠ "") by discriminate.
  destruct (malformed_package_json Json.loads Xml.fromstring f "{oops" []
              eq_refl eq_refl eq_refl Hne eq_refl) as [Hrun Hsum].
  split; [exact Hrun|].
  apply (Hsum {| absolute := false; parts := ["app"] |} root []
           [{| path := {| absolute := false;
                          parts := ["app"; "requirements.txt"] |};
               is_file := true; data := ReadOk "flask" |}]
           [] ["Python dependencies (requirements.txt): flask."]);
    reflexivity.
Defined.

(** ** Gemfile *)

(** What the loop records on lines met in Gemfiles: a version constraint
    leaves a quote and the comma on the name, every quote around a name goes,
    and [gem] is tested as a prefix of the line. *)
Example gem_name_with_version :
  gem_name (quoted "gem `rails`, `~> 7.0`") = quoted "rails`,".
Proof. reflexivity. Qed.

Example gem_name_nested_quotes : gem_name (quoted "gem `'pg'`") = "pg".
Proof. reflexivity. Qed.

Example gem_names_prefix_test :
  gem_names ["gems_path lib"; "  gem 'rspec'"; "gem 'rake'"] = ["lib"; "rake"].
Proof. reflexivity. Qed.

Lemma gemfile_line_ok line deps out :
  gem_line_ok line →
  gemfile_line line deps out =
    (Return (if Str.startswith "gem" line then deps ++ [gem_name line] else deps),
     out).
Proof.
  intros Hok. unfold gemfile_line, gem_name.
  unfold gem_line_ok in Hok.
  destruct (Str.startswith "gem" line) eqn:Hgem; [|done].
  specialize (Hok I). run. unfold item.
  destruct (Str.split line) as [|t0 [|t1 ts]]; cbn in *; [lia..|done].
Qed.

Lemma gemfile_line_short line deps out :
  Str.startswith "gem" line → length (Str.split line) < 2 →
  gemfile_line line deps out = (Raise IndexError, out).
Proof.
  intros Hgem Hlen. unfold gemfile_line.
  destruct (Str.startswith "gem" line); [|done].
  run. unfold item.
  destruct (Str.split line) as [|t0 [|t1 ts]]; cbn in *; [done..|lia].
Qed.

Lemma gemfile_lines_ok lines : ∀ deps out,
  Forall gem_line_ok lines →
  for_each gemfile_line lines deps out = (Return (deps ++ gem_names lines), out).
Proof.
  induction lines as [|line lines IH]; intros deps out Hok; cbn.
  - by rewrite app_nil_r.
  - inversion_clear Hok as [|? ? Hline Hrest].
    unfold mbind, py_bind. rewrite (gemfile_line_ok _ _ _ Hline).
    rewrite (IH _ _ Hrest). f_equal. f_equal. unfold gem_names.
    destruct (Str.startswith "gem" line) eqn:Hgem.
    + cbn. by rewrite <- app_assoc.
    + done.
Qed.

Lemma splitlines_nonempty content : Str.splitlines content ≠ [] → content ≠ "".
Proof. by intros H ->. Qed.

(** C4. The code does not do what the claim says: a line that starts with
    [gem] and has no second token (as [gemspec] has) makes the extraction
    raise [IndexError], at the first such line. *)
Theorem gemfile_short_line_raises json_loads ET_fromstring f content
    before line after out :
  Path.name (path f) = "Gemfile" →
  data f = ReadOk content →
  Str.splitlines content = before ++ line :: after →
  Forall gem_line_ok before →
  Str.startswith "gem" line →
  length (Str.split line) < 2 →
  analyze_project_dependencies json_loads ET_fromstring f out
  = (Raise IndexError, out).
Proof.
  intros Hname Hdata Hlines Hbefore Hgem Hshort.
  assert (Hne : content ≠ "").
  { apply splitlines_nonempty. rewrite Hlines. by destruct before. }
  branch Hname. run.
  rewrite (read_ok _ _ _ Hdata), (if_content_nonempty _ Hne), Hlines.
  rewrite for_each_app. unfold mbind, py_bind.
  rewrite (gemfile_lines_ok _ _ _ Hbefore). cbn [for_each].
  unfold mbind, py_bind. by rewrite (gemfile_line_short _ _ _ Hgem Hshort).
Qed.

Lemma gemfile_short_line_raises_witness :
  let content := "source 'https://rubygems.org'" +:+ Str.newline
                 +:+ "gemspec" +:+ Str.newline +:+ "gem 'rake'" in
  let f := {| path := {| absolute := false; parts := ["lib"; "Gemfile"] |};
              is_file := true; data := ReadOk content |} in
  analyze_project_dependencies Json.loads Xml.fromstring f [] = (Raise IndexError, []).
Proof.
  intros content f.
  apply (gemfile_short_line_raises Json.loads Xml.fromstring f content
           ["source 'https://rubygems.org'"] "gemspec" ["gem 'rake'"]);
    try reflexivity.
  - repeat constructor.
  - cbn. lia.
Defined.

(** C5, as stated, fails: an indented line [gem "rspec"] has [gem] as its
    first token and the code records nothing for it. *)
Lemma indented_gem_counterexample :
  let content := "group :test do" +:+ Str.newline
                 +:+ quoted "  gem `rspec`" +:+ Str.newline +:+ "end" in
  let f := {| path := {| absolute := false; parts := ["app"; "Gemfile"] |};
              is_file := true; data := ReadOk content |} in
  spec_gem_dependencies content = ["rspec"]
  ∧ analyze_project_dependencies Json.loads Xml.fromstring f []
    = (Return "Ruby dependencies (Gemfile): .", [])
  ∧ ¬ (∀ g text, Path.name (path g) = "Gemfile" → data g = ReadOk text →
         fst (analyze_project_dependencies Json.loads Xml.fromstring g [])
         = Return ("Ruby dependencies (Gemfile): "
                   +:+ Str.join ", " (spec_gem_dependencies text) +:+ ".")).
Proof.
  intros content f. split; [reflexivity|]. split; [reflexivity|].
  intros H. specialize (H f content eq_refl eq_refl). discriminate H.
Qed.

(** C5, amended. For every file named [Gemfile] whose content is read, is
    not empty and has at least two tokens on every line that starts with the
    characters [gem], the extraction records, for each line that starts with
    the characters [gem] and in line order, the second white-space-separated
    token without its leading and trailing double quotes and then without its
    leading and trailing single quotes. *)
Theorem gemfile_dependencies json_loads ET_fromstring f content out :
  Path.name (path f) = "Gemfile" →
  data f = ReadOk content →
  content ≠ "" →
  Forall gem_line_ok (Str.splitlines content) →
  analyze_project_dependencies json_loads ET_fromstring f out
  = (Return ("Ruby dependencies (Gemfile): "
             +:+ Str.join ", " (gem_names (Str.splitlines content)) +:+ "."),
     out).
Proof.
  intros Hname Hdata Hne Hok. branch Hname. run.
  rewrite (read_ok _ _ _ Hdata), (if_content_nonempty _ Hne).
  by rewrite (gemfile_lines_ok _ _ _ Hok).
Qed.

(** The Gemfile of the specification: [gem "rails"], a comment, [gem 'pg']. *)
Lemma gemfile_dependencies_witness :
  let content := quoted "gem `rails`" +:+ Str.newline +:+ "# comment"
                 +:+ Str.newline +:+ "gem 'pg'" in
  let f := {| path := {| absolute := false; parts := ["app"; "Gemfile"] |};
              is_file := true; data := ReadOk content |} in
  gem_names (Str.splitlines content) = ["rails"; "pg"]
  ∧ analyze_project_dependencies Json.loads Xml.fromstring f []
    = (Return "Ruby dependencies (Gemfile): rails, pg.", []).
Proof.
  intros content f. split; [reflexivity|].
  apply (gemfile_dependencies Json.loads Xml.fromstring f content []);
    try reflexivity; [discriminate|].
  repeat constructor; intros H; try destruct H; cbn; lia.
Defined.

(** ** package.json *)

(** C6. For a file named [package.json] whose content parses as a JSON object:
    with the dependencies mapping a: 1.0, b: 2.0 the extraction returns
    exactly "Node.js dependencies: a, b." (for every mapping, its keys in
    iteration order); when the object has no dependencies mapping the result
    is that of an empty mapping, not an error.  [json.loads] rejects the
    empty text. *)
Theorem package_json_dependencies json_loads ET_fromstring f content members out :
  json_loads "" = None →
  Path.name (path f) = "package.json" →
  data f = ReadOk content →
  json_loads content = Some (JObject members) →
  (∀ deps, dict_get "dependencies" members = Some (JObject deps) →
     analyze_project_dependencies json_loads ET_fromstring f out
     = (Return ("Node.js dependencies: "
                +:+ Str.join ", " (map fst deps) +:+ "."), out))
  ∧ (dict_get "dependencies" members
     = Some (JObject [("a", JString "1.0"); ("b", JString "2.0")]) →
     analyze_project_dependencies json_loads ET_fromstring f out
     = (Return "Node.js dependencies: a, b.", out))
  ∧ (dict_get "dependencies" members = None →
     analyze_project_dependencies json_loads ET_fromstring f out
     = (Return "Node.js dependencies: .", out)).
Proof.
  intros Hlib Hname Hdata Hjson.
  assert (Hne : content ≠ "") by (intros ->; congruence).
  assert (Hrun : ∀ deps,
            json_get (JObject members) "dependencies" (JObject [])
            = Return (JObject deps) →
            analyze_project_dependencies json_loads ET_fromstring f out
            = (Return ("Node.js dependencies: "
                       +:+ Str.join ", " (map fst deps) +:+ "."), out)).
  { intros deps Hget. branch Hname. run.
    rewrite (read_ok _ _ _ Hdata), (if_content_nonempty _ Hne), Hjson, Hget.
    reflexivity. }
  split; [|split].
  - intros deps Hdeps. apply Hrun. cbn. by rewrite Hdeps.
  - intros Hdeps. rewrite (Hrun _ ltac:(cbn; by rewrite Hdeps)). reflexivity.
  - intros Hdeps. rewrite (Hrun [] ltac:(cbn; by rewrite Hdeps)). reflexivity.
Qed.

Lemma package_json_dependencies_witness :
  let f text :=
    {| path := {| absolute := false; parts := ["app"; "package.json"] |};
       is_file := true; data := ReadOk text |} in
  let with_deps :=
    quoted "{`name`: `app`, `dependencies`: {`a`:`1.0`,`b`:`2.0`}}" in
  let without_deps := quoted "{`name`: `app`}" in
  analyze_project_dependencies Json.loads Xml.fromstring (f with_deps) []
  = (Return "Node.js dependencies: a, b.", [])
  ∧ analyze_project_dependencies Json.loads Xml.fromstring (f without_deps) []
    = (Return "Node.js dependencies: .", []).
Proof.
  intros f with_deps without_deps. split.
  - apply (package_json_dependencies Json.loads Xml.fromstring (f with_deps)
             with_deps
             [("name", JString "app");
              ("dependencies",
               JObject [("a", JString "1.0"); ("b", JString "2.0")])] []);
      reflexivity.
  - apply (package_json_dependencies Json.loads Xml.fromstring (f without_deps)
             without_deps [("name", JString "app")] []);
      reflexivity.
Defined.

(** ** requirements.txt and Pipfile *)

(** C7, as stated, fails: for an empty [requirements.txt] the extraction
    returns the empty string, which carries no label. *)
Lemma empty_requirements_counterexample :
  let f := {| path := {| absolute := false; parts := ["app"; "requirements.txt"] |};
              is_file := true; data := ReadOk "" |} in
  analyze_project_dependencies Json.loads Xml.fromstring f [] = (Return "", [])
  ∧ ¬ (∀ g text,
         Path.name (path g) = "requirements.txt" → data g = ReadOk text →
         ∃ rest,
           fst (analyze_project_dependencies Json.loads Xml.fromstring g [])
           = Return ("Python dependencies (requirements.txt)" +:+ rest)).
Proof.
  intros f. split; [reflexivity|].
  intros H. destruct (H f "" eq_refl eq_refl) as [rest Hrest].
  discriminate Hrest.
Qed.

(** C7, amended. For every file named [requirements.txt] or [Pipfile] whose
    content is read and is not empty, the extraction takes the non-empty
    lines that do not start with [#], verbatim and in line order, as the
    dependency entries, and labels the result with the file name that
    matched. *)
Theorem python_manifest_dependencies json_loads ET_fromstring f content out :
  Path.name (path f) = "requirements.txt" ∨ Path.name (path f) = "Pipfile" →
  data f = ReadOk content →
  content ≠ "" →
  let dependencies := python_dependencies content in
  dependencies `sublist_of` Str.splitlines content
  ∧ (∀ line, line ∈ dependencies ↔
       line ∈ Str.splitlines content ∧ line ≠ ""
       ∧ Str.startswith "#" line = false)
  ∧ analyze_project_dependencies json_loads ET_fromstring f out
    = (Return ("Python dependencies (" +:+ Path.name (path f) +:+ "): "
               +:+ Str.join ", " dependencies +:+ "."), out).
Proof.
  intros Hname Hdata Hne dependencies. split; [|split].
  - apply sublist_filter.
  - intros line. unfold dependencies, python_dependencies.
    rewrite list_elem_of_filter.
    destruct line as [|c line]; destruct (Str.startswith "#" _) eqn:Hs;
      cbn; intuition (try done).
  - unfold analyze_project_dependencies.
    destruct Hname as [Hname|Hname]; rewrite Hname;
      repeat (first [ rewrite decide_True by (auto; done)
                    | rewrite decide_False by (intuition discriminate) ]);
      run; by rewrite (read_ok _ _ _ Hdata), (if_content_nonempty _ Hne).
Qed.

(** The file of the specification: [flask], an empty line, a comment,
    [requests]. *)
Lemma python_manifest_dependencies_witness :
  let content := "flask" +:+ Str.newline +:+ Str.newline +:+ "# note"
                 +:+ Str.newline +:+ "requests" in
  let f name :=
    {| path := {| absolute := false; parts := ["app"; name] |};
       is_file := true; data := ReadOk content |} in
  python_dependencies content = ["flask"; "requests"]
  ∧ analyze_project_dependencies Json.loads Xml.fromstring
      (f "requirements.txt") []
    = (Return "Python dependencies (requirements.txt): flask, requests.", [])
  ∧ analyze_project_dependencies Json.loads Xml.fromstring (f "Pipfile") []
    = (Return "Python dependencies (Pipfile): flask, requests.", []).
Proof.
  intros content f. split; [reflexivity|]. split.
  - apply (python_manifest_dependencies Json.loads Xml.fromstring
             (f "requirements.txt") content []);
      [by left|reflexivity|discriminate].
  - apply (python_manifest_dependencies Json.loads Xml.fromstring
             (f "Pipfile") content []);
      [by right|reflexivity|discriminate].
Defined.

(** ** The suffix [.csproj] *)

Lemma rfind_go_app c s1 : ∀ s2 pos last,
  Str.rfind_go c pos last (s1 +:+ s2)
  = Str.rfind_go c (pos + String.length s1) (Str.rfind_go c pos last s1) s2.
Proof.
  induction s1 as [|a s1 IH]; intros s2 pos last; cbn.
  - by rewrite Nat.add_0_r.
  - change (String a s1 +:+ s2) with (String a (s1 +:+ s2)). cbn.
    rewrite IH. f_equal. lia.
Qed.

Lemma string_length_app s1 s2 :
  String.length (s1 +:+ s2) = String.length s1 + String.length s2.
Proof.
  induction s1 as [|a s1 IH]; [done|].
  change (String a s1 +:+ s2) with (String a (s1 +:+ s2)). cbn. by rewrite IH.
Qed.

Lemma substring_app_r s1 : ∀ s2 m,
  String.substring (String.length s1) m (s1 +:+ s2) = String.substring 0 m s2.
Proof. induction s1 as [|a s1 IH]; intros s2 m; [done|]. cbn. apply IH. Qed.

Lemma substring_split s : ∀ i, i ≤ String.length s →
  s = String.substring 0 i s +:+ String.substring i (String.length s - i) s.
Proof.
  induction s as [|a s IH]; intros [|i] Hi; cbn in *; try lia.
  - done.
  - change (String a s = String a (String.substring 0 (String.length s) s)).
    f_equal. clear. induction s as [|b s IH]; [done|]. cbn. by f_equal.
  - change (String a s = String a (String.substring 0 i s +:+
              String.substring i (String.length s - i) s)).
    f_equal. apply IH. lia.
Qed.

Lemma substring_prefix_length s : ∀ i, i ≤ String.length s →
  String.length (String.substring 0 i s) = i.
Proof.
  induction s as [|a s IH]; intros [|i] Hi; cbn in *; try lia; try done.
  rewrite IH; lia.
Qed.

(** A path has the suffix [.csproj] exactly when its name is a non-empty
    stem followed by [.csproj]. *)
Lemma suffix_csproj p :
  Path.suffix p = ".csproj" ↔
  ∃ stem, stem ≠ "" ∧ Path.name p = stem +:+ ".csproj".
Proof.
  unfold Path.suffix. split.
  - destruct (Str.rfind "." (Path.name p)) as [i|]; [|done].
    destruct (Nat.ltb_spec 0 i) as [H0|]; [|done].
    destruct (Nat.ltb_spec i (String.length (Path.name p) - 1)) as [H1|];
      [|done].
    cbn [andb]. intros Hsub.
    exists (String.substring 0 i (Path.name p)). split.
    + intros Hempty.
      pose proof (substring_prefix_length (Path.name p) i ltac:(lia)) as Hlen.
      rewrite Hempty in Hlen. cbn in Hlen. lia.
    + rewrite <- Hsub. apply substring_split. lia.
  - intros (stem & Hne & ->). unfold Str.rfind.
    rewrite rfind_go_app. cbn [Str.rfind_go Ascii.eqb Bool.eqb].
    assert (0 < String.length stem) by (destruct stem; [done|cbn; lia]).
    rewrite string_length_app. cbn [String.length Nat.add].
    destruct (Nat.ltb_spec 0 (String.length stem)); [|lia].
    destruct (Nat.ltb_spec (String.length stem) (String.length stem + 7 - 1));
      [|lia].
    cbn [andb].
    replace (String.length stem + 7 - String.length stem) with 7 by lia.
    by rewrite substring_app_r.
Qed.

Lemma csproj_not_other_manifest p :
  Path.suffix p = ".csproj" →
  Path.name p ≠ "package.json" ∧ Path.name p ≠ "Gemfile"
  ∧ ¬ (Path.name p = "requirements.txt" ∨ Path.name p = "Pipfile").
Proof.
  unfold Path.suffix. intros H.
  repeat split; [intros Hn|intros Hn|intros [Hn|Hn]];
    rewrite Hn in H; vm_compute in H; discriminate H.
Qed.

(** The branch of [analyze_project_dependencies] for a [.csproj] file. *)
Lemma analyze_csproj json_loads ET_fromstring f content out :
  Path.suffix (path f) = ".csproj" →
  data f = ReadOk content →
  content ≠ "" →
  analyze_project_dependencies json_loads ET_fromstring f out =
    match ET_fromstring content with
    | Some root =>
        match comprehension (attrib_item "Include")
                (findall_descendants "PackageReference" root) with
        | Return packages =>
            (Return ("C# dependencies: " +:+ Str.join ", " packages +:+ "."),
             out)
        | Raise x => (Raise x, out)
        end
    | None => (Return "Error analyzing .csproj.", out)
    end.
Proof.
  intros Hsuffix Hdata Hne.
  destruct (csproj_not_other_manifest _ Hsuffix) as (H1 & H2 & H3).
  unfold analyze_project_dependencies.
  rewrite (decide_False _ _ H1), (decide_False _ _ H2), (decide_False _ _ H3).
  rewrite (decide_True _ _ Hsuffix). run.
  rewrite (read_ok _ _ _ Hdata), (if_content_nonempty _ Hne).
  destruct (ET_fromstring content) as [root|]; [|done].
  by destruct (comprehension _ _).
Qed.

(** ** Elements below the root *)

Lemma element_induction (P : element → Prop) :
  (∀ tag attrib children, Forall P children → P (Element tag attrib children)) →
  ∀ e, P e.
Proof.
  intros H. fix IH 1. intros [tag attrib children]. apply H.
  induction children as [|c children IHc]; constructor.
  - apply IH.
  - apply IHc.
Qed.

Lemma iter_In r : ∀ e, In e (iter r) ↔ e = r ∨ descendant r e.
Proof.
  induction r as [tag attrib children IH] using element_induction.
  intros e. cbn [iter]. rewrite Forall_forall in IH. split.
  - intros [<-|He]; [by left|]. right.
    apply in_flat_map in He as (c & Hc & He).
    apply (IH c (proj2 (list_elem_of_In _ _) Hc)) in He as [->|He].
    + by apply descendant_child.
    + by eapply descendant_below.
  - intros [->|He]; [by left|]. right. apply in_flat_map.
    inversion He as [? ? Hc|? c ? Hc Hbelow]; subst; cbn in Hc.
    + exists e. split; [done|]. destruct e. by left.
    + exists c. split; [done|].
      apply (IH c (proj2 (list_elem_of_In _ _) Hc)). by right.
Qed.

(** [findall] searches below the root at every depth, and not the root. *)
Lemma findall_descendants_In tag root e :
  In e (findall_descendants tag root) ↔ tag_of e = tag ∧ descendant root e.
Proof.
  unfold findall_descendants.
  rewrite <- list_elem_of_In, list_elem_of_filter, list_elem_of_In, in_flat_map.
  split.
  - intros (Htag & c & Hc & He). split; [done|].
    apply iter_In in He as [->|He].
    + by apply descendant_child.
    + by eapply descendant_below.
  - intros (Htag & He). split; [done|].
    inversion He as [? ? Hc|? c ? Hc Hbelow]; subst.
    + exists e. split; [done|]. apply iter_In. by left.
    + exists c. split; [done|]. apply iter_In. by right.
Qed.

Lemma comprehension_all l :
  Forall (λ e, is_Some (include_of e)) l →
  comprehension (attrib_item "Include") l
  = Return (map (λ e, default "" (include_of e)) l).
Proof.
  induction 1 as [|e l [v Hv] _ IH]; [done|].
  cbn [comprehension map]. rewrite IH.
  unfold attrib_item. fold (include_of e). by rewrite Hv.
Qed.

Lemma comprehension_missing l e :
  In e l → include_of e = None →
  comprehension (attrib_item "Include") l = Raise (KeyError "Include").
Proof.
  intros He Hnone. induction l as [|a l IH]; [done|]. cbn [comprehension].
  destruct (attrib_item "Include" a) as [v|x] eqn:Ha.
  - destruct He as [->|He].
    + unfold attrib_item in Ha. fold (include_of e) in Ha.
      by rewrite Hnone in Ha.
    + by rewrite (IH He).
  - unfold attrib_item in Ha. by destruct (dict_get _ _); simplify_eq.
Qed.

(** ** .csproj *)

(** C8, as stated, fails: the empty text is not an XML document, and for an
    empty [.csproj] file the extraction returns the empty string, not the
    error sentence. *)
Lemma empty_csproj_counterexample :
  let f := {| path := {| absolute := false; parts := ["app"; "App.csproj"] |};
              is_file := true; data := ReadOk "" |} in
  Xml.fromstring "" = None
  ∧ analyze_project_dependencies Json.loads Xml.fromstring f [] = (Return "", [])
  ∧ ¬ (∀ g stem text,
         Path.name (path g) = stem +:+ ".csproj" → data g = ReadOk text →
         Xml.fromstring text = None →
         fst (analyze_project_dependencies Json.loads Xml.fromstring g [])
         = Return "Error analyzing .csproj.").
Proof.
  intros f. split; [reflexivity|]. split; [reflexivity|].
  intros H. specialize (H f "App" "" eq_refl eq_refl eq_refl). discriminate H.
Qed.

(** The search goes through the children in order, and takes a child before
    what is below it: document order. *)
Lemma findall_descendants_children tag root :
  findall_descendants tag root
  = flat_map (λ c, (if decide (tag_of c = tag) then [c] else [])
                   ++ findall_descendants tag c)
             (children_of root).
Proof.
  unfold findall_descendants.
  induction (children_of root) as [|c cs IH]; [done|].
  cbn [flat_map]. rewrite filter_app, IH. f_equal.
  destruct c as [t a children]. cbn [iter]. rewrite filter_cons. cbn [app].
  by case_decide.
Qed.

(** An element in a namespace does not have the tag [PackageReference]:
    ElementTree puts the namespace before the name, in braces. *)
Lemma namespaced_tag namespace :
  "{" +:+ namespace +:+ "}PackageReference" ≠ "PackageReference".
Proof. discriminate. Qed.

(** C8, amended. For every file whose name is a non-empty stem followed by
    [.csproj] and whose content is read and is not empty: if XML parsing
    fails, the extraction returns exactly "Error analyzing .csproj."; if the
    content parses, the elements searched are the elements below the root
    element, at every depth, whose tag is exactly [PackageReference], that
    is the [PackageReference] elements in no XML namespace (an element in a
    namespace, as in a project file that declares the MSBuild namespace, has
    the namespace in braces before its name and is not searched); they are
    taken in document order, the children in order and each child before
    what is below it, and when each of them has an [Include] attribute the
    extraction returns their [Include] values in that order. *)
Theorem csproj_dependencies json_loads ET_fromstring f stem content out :
  stem ≠ "" →
  Path.name (path f) = stem +:+ ".csproj" →
  data f = ReadOk content →
  content ≠ "" →
  (ET_fromstring content = None →
   analyze_project_dependencies json_loads ET_fromstring f out
   = (Return "Error analyzing .csproj.", out))
  ∧ ∀ root, ET_fromstring content = Some root →
      let references := findall_descendants "PackageReference" root in
      (∀ e, In e references ↔
            tag_of e = "PackageReference" ∧ descendant root e)
      ∧ (∀ e namespace,
           tag_of e = "{" +:+ namespace +:+ "}PackageReference" →
           ¬ In e references)
      ∧ references
        = flat_map (λ c, (if decide (tag_of c = "PackageReference")
                          then [c] else [])
                         ++ findall_descendants "PackageReference" c)
                   (children_of root)
      ∧ (Forall (λ e, is_Some (include_of e)) references →
         analyze_project_dependencies json_loads ET_fromstring f out
         = (Return ("C# dependencies: "
                    +:+ Str.join ", "
                          (map (λ e, default "" (include_of e)) references)
                    +:+ "."), out)).
Proof.
  intros Hstem Hname Hdata Hne.
  assert (Hsuffix : Path.suffix (path f) = ".csproj")
    by (apply suffix_csproj; eauto).
  split.
  - intros Hxml. by rewrite (analyze_csproj _ _ _ _ _ Hsuffix Hdata Hne), Hxml.
  - intros root Hxml references. split; [|split; [|split]].
    + intros e. apply findall_descendants_In.
    + intros e namespace Htag Hin.
      apply findall_descendants_In in Hin as [Htag' _].
      rewrite Htag in Htag'. by apply namespaced_tag in Htag'.
    + apply findall_descendants_children.
    + intros Hall.
      rewrite (analyze_csproj _ _ _ _ _ Hsuffix Hdata Hne), Hxml.
      fold references. by rewrite (comprehension_all _ Hall).
Qed.

(** A project file that declares the MSBuild namespace: no element has the
    tag [PackageReference], and no dependency is found. *)
Example msbuild_namespace_example :
  let project :=
    "<Project xmlns='http://schemas.microsoft.com/developer/msbuild/2003'>"
    +:+ "<ItemGroup><PackageReference Include='Serilog'/>"
    +:+ "<PackageReference Update='Dapper'/></ItemGroup></Project>" in
  let f := {| path := {| absolute := false; parts := ["app"; "Old.csproj"] |};
              is_file := true; data := ReadOk project |} in
  (tag_of <$> Xml.fromstring project)
  = Some "{http://schemas.microsoft.com/developer/msbuild/2003}Project"
  ∧ analyze_project_dependencies Json.loads Xml.fromstring f []
    = (Return "C# dependencies: .", []).
Proof. split; vm_compute; reflexivity. Qed.

Lemma csproj_dependencies_witness :
  let f text :=
    {| path := {| absolute := false; parts := ["app"; "App.csproj"] |};
       is_file := true; data := ReadOk text |} in
  let project :=
    "<Project Sdk='Microsoft.NET.Sdk'><ItemGroup>"
    +:+ "<PackageReference Include='Serilog' Version='3.1.1'/>"
    +:+ "<Group><PackageReference Include='Dapper'/></Group>"
    +:+ "</ItemGroup></Project>" in
  analyze_project_dependencies Json.loads Xml.fromstring (f "<Project>") []
  = (Return "Error analyzing .csproj.", [])
  ∧ analyze_project_dependencies Json.loads Xml.fromstring (f project) []
    = (Return "C# dependencies: Serilog, Dapper.", []).
Proof.
  intros f project. split.
  - apply (csproj_dependencies Json.loads Xml.fromstring (f "<Project>") "App"
             "<Project>" []); [discriminate|reflexivity..|discriminate|].
    reflexivity.
  - assert (Hne : "App" ≠ "") by discriminate.
    assert (Hne' : project ≠ "") by discriminate.
    destruct (csproj_dependencies Json.loads Xml.fromstring (f project) "App"
                project [] Hne eq_refl eq_refl Hne') as [_ Hparsed].
    destruct (Xml.fromstring project) as [root|] eqn:Hroot; [|discriminate].
    destruct (Hparsed root eq_refl) as (_ & _ & _ & Hrun).
    vm_compute in Hroot. injection Hroot as <-.
    apply Hrun. repeat constructor; by eexists.
Defined.

(** C10, as stated, fails: a document whose root element is the
    [PackageReference] without [Include] holds such an element, and the
    extraction raises nothing. *)
Lemma root_package_reference_counterexample :
  let f := {| path := {| absolute := false; parts := ["app"; "App.csproj"] |};
              is_file := true; data := ReadOk "<PackageReference/>" |} in
  Xml.fromstring "<PackageReference/>" = Some (Element "PackageReference" [] [])
  ∧ analyze_project_dependencies Json.loads Xml.fromstring f []
    = (Return "C# dependencies: .", [])
  ∧ ¬ (∀ g stem text root e,
         Path.name (path g) = stem +:+ ".csproj" → data g = ReadOk text →
         Xml.fromstring text = Some root →
         In e (iter root) → tag_of e = "PackageReference" →
         include_of e = None →
         ∃ x, fst (analyze_project_dependencies Json.loads Xml.fromstring g [])
              = Raise x).
Proof.
  intros f. split; [reflexivity|]. split; [reflexivity|].
  intros H.
  destruct (H f "App" "<PackageReference/>" (Element "PackageReference" [] [])
              (Element "PackageReference" [] [])
              eq_refl eq_refl eq_refl (or_introl eq_refl) eq_refl eq_refl)
    as [x Hx].
  discriminate Hx.
Qed.

(** C10, amended. For every file whose name is a non-empty stem followed by
    [.csproj] and whose content parses as XML with, below the root element,
    at least one element whose tag is exactly [PackageReference] (a
    [PackageReference] element in no XML namespace) and that has no
    [Include] attribute, the extraction raises [KeyError] for [Include]: it
    returns neither the error sentence nor the empty contribution.
    [ET.fromstring] rejects the empty text. *)
Theorem csproj_missing_include_raises json_loads ET_fromstring f stem content
    root e out :
  ET_fromstring "" = None →
  stem ≠ "" →
  Path.name (path f) = stem +:+ ".csproj" →
  data f = ReadOk content →
  ET_fromstring content = Some root →
  descendant root e →
  tag_of e = "PackageReference" →
  include_of e = None →
  analyze_project_dependencies json_loads ET_fromstring f out
  = (Raise (KeyError "Include"), out).
Proof.
  intros Hlib Hstem Hname Hdata Hxml Hbelow Htag Hnone.
  assert (Hsuffix : Path.suffix (path f) = ".csproj")
    by (apply suffix_csproj; eauto).
  assert (Hne : content ≠ "") by (intros ->; congruence).
  rewrite (analyze_csproj _ _ _ _ _ Hsuffix Hdata Hne), Hxml.
  rewrite (comprehension_missing _ e); [done| |done].
  by apply findall_descendants_In.
Qed.

Lemma csproj_missing_include_raises_witness :
  let project :=
    "<Project><ItemGroup><PackageReference Include='Serilog'/>"
    +:+ "<PackageReference Update='Dapper'/></ItemGroup></Project>" in
  let f := {| path := {| absolute := false; parts := ["app"; "App.csproj"] |};
              is_file := true; data := ReadOk project |} in
  analyze_project_dependencies Json.loads Xml.fromstring f []
  = (Raise (KeyError "Include"), []).
Proof.
  intros project f.
  apply (csproj_missing_include_raises Json.loads Xml.fromstring f "App" project
           (Element "Project" []
              [Element "ItemGroup" []
                 [Element "PackageReference" [("Include", "Serilog")] [];
                  Element "PackageReference" [("Update", "Dapper")] []]])
           (Element "PackageReference" [("Update", "Dapper")] []) []);
    try reflexivity; try discriminate.
  eapply descendant_below; [by left|].
  apply descendant_child. cbn. auto.
Defined.

(** ** Read failures *)

Lemma analyze_read_error json_loads ET_fromstring f e out :
  data f = ReadError e →
  analyze_project_dependencies json_loads ET_fromstring f out
  = (Return "",
     if decide (manifest f) then out ++ [read_error_message f e] else out).
Proof.
  intros Hdata. unfold analyze_project_dependencies, manifest.
  repeat case_decide; run; rewrite ?(read_error _ _ _ Hdata); cbn;
    solve [ reflexivity | exfalso; tauto ].
Qed.

(** C9. A failure to read a file is caught in [read_file_content], which
    prints a line and gives no content; the extraction of that file then
    returns the empty contribution, the loop of the summarization goes on
    with its accumulators unchanged, and the summary is the one of the tree
    without that file: the failure is never raised to the summarization. *)
Theorem read_failure_is_contained json_loads ET_fromstring f e out :
  data f = ReadError e →
  read_file_content f out = (Return None, out ++ [read_error_message f e])
  ∧ analyze_project_dependencies json_loads ET_fromstring f out
    = (Return "",
       if decide (manifest f) then out ++ [read_error_message f e] else out)
  ∧ (is_file f = true →
     (∀ directory state,
        fst (summarize_entry json_loads ET_fromstring directory f state out)
        = Return state)
     ∧ ∀ directory root root' before after,
         rglob directory root = before ++ f :: after →
         rglob directory root' = before ++ after →
         fst (summarize_project_structure json_loads ET_fromstring
                directory root out)
         = fst (summarize_project_structure json_loads ET_fromstring
                  directory root' out)).
Proof.
  intros Hdata.
  pose proof (analyze_read_error json_loads ET_fromstring f e) as Hrun.
  split; [by apply read_error|]. split; [by apply Hrun|].
  intros Hfile.
  assert (Hresult : analysis json_loads ET_fromstring f = Return "").
  { unfold analysis. by rewrite Hrun. }
  split.
  - intros directory [deps dirs].
    by rewrite summarize_entry_outcome, Hfile, Hresult.
  - intros directory root root' before after Hroot Hroot'.
    rewrite !summarize_outcome, Hroot, Hroot', !contributions_app.
    cbn [contributions]. rewrite Hfile, Hresult. cbn [Str.truthy].
    unfold recorded_parents. rewrite !flat_map_app. cbn [flat_map].
    rewrite Hfile. cbn [app].
    by destruct (contributions _ _ after).
Qed.

Lemma read_failure_is_contained_witness :
  let denied := "[Errno 13] Permission denied: 'app/Pipfile'" in
  let f := {| path := {| absolute := false; parts := ["app"; "Pipfile"] |};
              is_file := true; data := ReadError denied |} in
  analyze_project_dependencies Json.loads Xml.fromstring f []
  = (Return "", ["Error reading file app/Pipfile: " +:+ denied])
  ∧ summarize_project_structure Json.loads Xml.fromstring
      {| absolute := false; parts := ["app"] |}
      (Listing [File "Pipfile" (ReadError denied);
                File "requirements.txt" (ReadOk "flask")]) []
    = (Return ("Detected directories:" +:+ Str.newline +:+ Str.newline
               +:+ Str.newline +:+ "Dependencies info: "
               +:+ "Python dependencies (requirements.txt): flask."),
       ["Error reading file app/Pipfile: " +:+ denied]).
Proof.
  intros denied f.
  destruct (read_failure_is_contained Json.loads Xml.fromstring f denied []
              eq_refl) as (_ & Hrun & _).
  split; [exact Hrun|reflexivity].
Defined.

(** * Further properties of the summarization *)

Lemma quiet_ret {A} (a : A) : quiet (mret a).
Proof. by intros out. Qed.

Lemma quiet_lift {A} (o : outcome A) : quiet (lift o).
Proof. by intros out. Qed.

Lemma quiet_bind {A B} (m : py A) (f : A → py B) :
  quiet m → (∀ a, quiet (f a)) → quiet (m ≫= f).
Proof.
  intros Hm Hf out. unfold mbind, py_bind.
  specialize (Hm out). destruct (m out) as [[a|e] o]; cbn in *; subst; [|done].
  apply Hf.
Qed.

Lemma quiet_for_each {A S} (body : A → S → py S) l :
  (∀ x s, quiet (body x s)) → ∀ s, quiet (for_each body l s).
Proof.
  intros Hb. induction l as [|x l IH]; intros s; cbn.
  - apply quiet_ret.
  - apply quiet_bind; auto.
Qed.

Lemma quiet_gemfile_line line deps : quiet (gemfile_line line deps).
Proof.
  unfold gemfile_line. case_match.
  - apply quiet_bind; [apply quiet_lift|intros; apply quiet_ret].
  - apply quiet_ret.
Qed.

Section Summarization.

Variable json_loads : string → option json.
Variable ET_fromstring : string → option element.

Local Abbreviation analyze := (analyze_project_dependencies json_loads ET_fromstring).
Local Abbreviation summarize := (summarize_project_structure json_loads ET_fromstring).
Local Abbreviation step := (summarize_entry json_loads ET_fromstring).
Local Abbreviation result_of := (analysis json_loads ET_fromstring).

Lemma quiet_analyze f text : data f = ReadOk text → quiet (analyze f).
Proof.
  intros Hdata.
  assert (Hread : quiet (read_file_content f)).
  { intros out. by rewrite (read_ok _ _ _ Hdata). }
  unfold analyze_project_dependencies.
  repeat case_decide; try apply quiet_ret;
    (apply quiet_bind; [exact Hread|intros c]);
    repeat case_match;
    repeat first [ apply quiet_ret | apply quiet_lift
                 | apply quiet_bind; [|intros ?]
                 | apply quiet_for_each; intros; apply quiet_gemfile_line ].
Qed.

(** What the extraction prints for a file. *)
Lemma analyze_prints f :
  is_file f = true →
  snd (analyze f []) = read_error_lines [f].
Proof.
  intros Hfile. unfold read_error_lines. cbn. rewrite Hfile, app_nil_r.
  destruct (data f) as [text|x] eqn:Hdata.
  - apply (quiet_analyze _ _ Hdata).
  - rewrite (analyze_read_error _ _ _ _ _ Hdata). cbn. by case_decide.
Qed.

Lemma read_error_lines_app l1 l2 :
  read_error_lines (l1 ++ l2) = read_error_lines l1 ++ read_error_lines l2.
Proof. apply flat_map_app. Qed.

Lemma read_error_lines_cons e l :
  read_error_lines (e :: l) = read_error_lines [e] ++ read_error_lines l.
Proof. apply (read_error_lines_app [e] l). Qed.

Lemma step_run d e deps dirs out :
  step d e (deps, dirs) out =
    if is_file e then
      match result_of e with
      | Return r =>
          (Return (if Str.truthy r then deps ++ [r] else deps, dirs),
           out ++ read_error_lines [e])
      | Raise x => (Raise x, out ++ read_error_lines [e])
      end
    else
      match Path.relative_to (path e) d with
      | Return rel =>
          (Return (deps, {[ Path.str (Path.parent rel) ]} ∪ dirs), out)
      | Raise x => (Raise x, out)
      end.
Proof.
  unfold summarize_entry. destruct (is_file e) eqn:Hfile.
  - unfold mbind, py_bind. rewrite (appends_analyze _ _ e out).
    rewrite (analyze_prints _ Hfile). fold (result_of e).
    destruct (result_of e) as [r|x]; [|done]. by destruct (Str.truthy r).
  - unfold mbind, py_bind, lift.
    by destruct (Path.relative_to (path e) d).
Qed.

Lemma regular_files_cons e l :
  regular_files (e :: l) =
    if is_file e then e :: regular_files l else regular_files l.
Proof.
  unfold regular_files. rewrite filter_cons.
  destruct (is_file e); by case_decide.
Qed.

Lemma regular_files_app l1 l2 :
  regular_files (l1 ++ l2) = regular_files l1 ++ regular_files l2.
Proof. apply filter_app. Qed.

Lemma loop_returns d entries : ∀ results deps dirs out,
  (∀ e, In e entries → ∃ rel, Path.relative_to (path e) d = Return rel) →
  Forall2 (λ e r, result_of e = Return r) (regular_files entries) results →
  for_each (step d) entries (deps, dirs) out =
    (Return (deps ++ filter (λ r, r ≠ "") results,
             list_to_set (recorded_parents d entries) ∪ dirs),
     out ++ read_error_lines entries).
Proof.
  induction entries as [|e entries IH]; intros results deps dirs out Hrel Hres.
  - inversion Hres; subst. cbn. rewrite !app_nil_r.
    by rewrite (left_id_L ∅ (∪)).
  - cbn [for_each]. unfold mbind, py_bind at 1. rewrite step_run.
    rewrite regular_files_cons in Hres.
    destruct (is_file e) eqn:Hfile.
    + inversion Hres as [|? r ? results' Hr Hres']; subst. rewrite Hr.
      rewrite (IH results') by (try done; intros; apply Hrel; by right).
      f_equal.
      * f_equal. f_equal.
        -- rewrite filter_cons.
           destruct r; cbn; [by rewrite decide_False by auto|].
           rewrite decide_True by done. by rewrite <- app_assoc.
        -- cbn [recorded_parents flat_map]. by rewrite Hfile.
      * by rewrite (read_error_lines_cons e entries), app_assoc.
    + destruct (Hrel e (or_introl eq_refl)) as [rel Heq]. rewrite Heq.
      rewrite (IH results) by (try done; intros; apply Hrel; by right).
      f_equal.
      * f_equal. f_equal.
        cbn [recorded_parents flat_map]. rewrite Hfile, Heq.
        change (flat_map ?f entries) with (recorded_parents d entries).
        cbn [app list_to_set]. rewrite (assoc_L (∪)). f_equal.
        apply (comm_L (∪)).
      * rewrite (read_error_lines_cons e entries).
        unfold read_error_lines at 2. cbn. by rewrite Hfile.
Qed.

Lemma loop_raises d before f after x : ∀ results deps dirs out,
  (∀ e, In e before → ∃ rel, Path.relative_to (path e) d = Return rel) →
  Forall2 (λ e r, result_of e = Return r) (regular_files before) results →
  is_file f = true → result_of f = Raise x →
  for_each (step d) (before ++ f :: after) (deps, dirs) out =
    (Raise x, out ++ read_error_lines (before ++ [f])).
Proof.
  intros results deps dirs out Hrel Hres Hfile Hx.
  rewrite for_each_app. unfold mbind, py_bind at 1.
  rewrite (loop_returns d before results) by done.
  cbn [for_each]. unfold mbind, py_bind. rewrite step_run, Hfile, Hx.
  by rewrite read_error_lines_app, app_assoc.
Qed.

End Summarization.

(** X1. When the extraction of every regular file of the tree returns,
    [summarize_project_structure] returns the two-part text: the sorted
    directory block, and the non-empty results of the regular files joined
    with single spaces in traversal order; and it prints exactly one line for
    each manifest file that could not be read, in traversal order. *)
Theorem summarize_returns json_loads ET_fromstring directory root results out :
  Forall2 (λ e r, analysis json_loads ET_fromstring e = Return r)
          (regular_files (rglob directory root)) results →
  summarize_project_structure json_loads ET_fromstring directory root out
  = (Return (project_summary
               (directory_block directory root)
               (Str.join " " (filter (λ r, r ≠ "") results))),
     out ++ read_error_lines (rglob directory root)).
Proof.
  intros Hres. unfold summarize_project_structure. unfold mbind, py_bind at 1.
  rewrite (loop_returns _ _ _ _ results) by
    (try done; intros e He;
     destruct (rglob_relative_to _ _ _ He) as (rel & _ & ->); eauto).
  cbn. unfold directory_block. by rewrite (right_id_L ∅ (∪)).
Qed.

Lemma summarize_returns_witness :
  let denied := "[Errno 13] Permission denied" in
  summarize_project_structure Json.loads Xml.fromstring
    {| absolute := false; parts := ["app"] |}
    (Listing [File "Pipfile" (ReadError denied);
              Dir "src" [File "README.md" (ReadOk "hello");
                         File "requirements.txt" (ReadOk "flask")];
              File "Gemfile" (ReadOk "gem 'pg'")]) []
  = (Return (project_summary "."
               ("Ruby dependencies (Gemfile): pg. "
                +:+ "Python dependencies (requirements.txt): flask.")),
     ["Error reading file app/Pipfile: " +:+ denied]).
Proof.
  intros denied. etrans.
  - apply (summarize_returns Json.loads Xml.fromstring _ _
             [""; "Ruby dependencies (Gemfile): pg."; "";
              "Python dependencies (requirements.txt): flask."] []).
    repeat constructor.
  - vm_compute. reflexivity.
Defined.

(** X2. The summarization stops at the first regular file whose extraction
    raises: it raises the same exception, and has printed the read-error
    lines of the entries up to that file and nothing after it. *)
Theorem summarize_raises_at_first_failure json_loads ET_fromstring directory
    root before f after results x out :
  rglob directory root = before ++ f :: after →
  Forall2 (λ e r, analysis json_loads ET_fromstring e = Return r)
          (regular_files before) results →
  is_file f = true →
  analysis json_loads ET_fromstring f = Raise x →
  summarize_project_structure json_loads ET_fromstring directory root out
  = (Raise x, out ++ read_error_lines (before ++ [f])).
Proof.
  intros Hentries Hres Hfile Hx.
  unfold summarize_project_structure. unfold mbind, py_bind at 1.
  rewrite Hentries.
  rewrite (loop_raises _ _ _ before f after x results); try done.
  intros e He.
  destruct (rglob_relative_to directory root e) as (rel & _ & ->); [|eauto].
  rewrite Hentries. apply in_or_app. by left.
Qed.

Lemma summarize_raises_at_first_failure_witness :
  summarize_project_structure Json.loads Xml.fromstring
    {| absolute := false; parts := ["gem"] |}
    (Listing [File "Pipfile" (ReadError "denied");
              File "Gemfile" (ReadOk "gemspec");
              File "requirements.txt" (ReadError "denied")]) []
  = (Raise IndexError, ["Error reading file gem/Pipfile: denied"]).
Proof.
  apply (summarize_raises_at_first_failure Json.loads Xml.fromstring
           {| absolute := false; parts := ["gem"] |} _
           [{| path := {| absolute := false; parts := ["gem"; "Pipfile"] |};
               is_file := true; data := ReadError "denied" |}]
           {| path := {| absolute := false; parts := ["gem"; "Gemfile"] |};
              is_file := true; data := ReadOk "gemspec" |}
           [{| path := {| absolute := false;
                          parts := ["gem"; "requirements.txt"] |};
               is_file := true; data := ReadError "denied" |}]
           [""] IndexError []);
    try reflexivity.
  repeat constructor.
Defined.

(** X3. The directory block does not depend on the order in which the
    traversal yields the entries: two trees whose entries are the same up to
    order have the same block, and the block is the one of every summary
    returned. *)
Theorem directory_block_order_independent json_loads ET_fromstring directory
    root root' :
  rglob directory root ≡ₚ rglob directory root' →
  directory_block directory root = directory_block directory root'
  ∧ ∀ out text,
      fst (summarize_project_structure json_loads ET_fromstring
             directory root out) = Return text →
      ∃ dependencies_info,
        text = project_summary (directory_block directory root')
                 dependencies_info.
Proof.
  intros Hperm.
  assert (Heq : directory_block directory root = directory_block directory root').
  { unfold directory_block. do 2 f_equal.
    apply list_to_set_perm_L. unfold recorded_parents.
    by apply Permutation_flat_map. }
  split; [exact Heq|].
  intros out text. rewrite summarize_outcome.
  destruct (contributions _ _ _) as [cs|x]; [|done].
  intros [= <-]. rewrite <- Heq. by eexists.
Qed.

Lemma directory_block_order_independent_witness :
  let d := {| absolute := false; parts := ["app"] |} in
  directory_block d
    (Listing [Dir "b" [Dir "y" []]; File "Gemfile" (ReadOk "gem 'pg'"); Dir "a" []])
  = directory_block d
      (Listing [Dir "a" []; Dir "b" [Dir "y" []]; File "Gemfile" (ReadOk "gem 'pg'")]).
Proof.
  intros d.
  apply (directory_block_order_independent Json.loads Xml.fromstring d).
  cbn.
  match goal with |- ?b :: ?g :: ?a :: ?y :: [] ≡ₚ _ =>
    change ([b; g] ++ a :: [y] ≡ₚ a :: [b; g] ++ [y])
  end.
  symmetry. apply Permutation_middle.
Defined.

(** * Further properties of the extraction *)

(** X4. A file that is not a manifest (its name is none of the four manifest
    names and its suffix is not [.csproj]) is not opened: the extraction
    returns the empty contribution and prints nothing, whatever reading the
    file would do. *)
Theorem analyze_ignores_other_files json_loads ET_fromstring f out :
  ¬ manifest f →
  analyze_project_dependencies json_loads ET_fromstring f out = (Return "", out).
Proof.
  unfold manifest, analyze_project_dependencies. intros Hother.
  repeat case_decide; solve [ reflexivity | exfalso; tauto ].
Qed.

Lemma analyze_ignores_other_files_witness :
  analyze_project_dependencies Json.loads Xml.fromstring
    {| path := {| absolute := false; parts := ["app"; "package-lock.json"] |};
       is_file := true; data := ReadError "[Errno 13] Permission denied" |} []
  = (Return "", []).
Proof.
  apply (analyze_ignores_other_files Json.loads Xml.fromstring).
  unfold manifest. vm_compute. intuition discriminate.
Defined.

(** X5. A tree that holds only regular files, none of them a manifest, has
    the summary of an empty tree (the one a missing root has), and nothing is
    printed. *)
Theorem summarize_plain_files json_loads ET_fromstring directory root out :
  (∀ e, In e (rglob directory root) → is_file e = true ∧ ¬ manifest e) →
  summarize_project_structure json_loads ET_fromstring directory root out
  = (Return empty_summary, out).
Proof.
  intros Hplain.
  assert (Hall : ∀ entries,
            (∀ e, In e entries → is_file e = true ∧ ¬ manifest e) →
            Forall2 (λ e r, analysis json_loads ET_fromstring e = Return r)
                    (regular_files entries)
                    (map (λ _, "") (regular_files entries))
            ∧ recorded_parents directory entries = []
            ∧ read_error_lines entries = []).
  { induction entries as [|e entries IH]; intros He.
    - repeat split; constructor.
    - destruct (He e (or_introl eq_refl)) as [Hfile Hother].
      destruct IH as (IH1 & IH2 & IH3); [intros; apply He; by right|].
      rewrite regular_files_cons, Hfile. repeat split.
      + constructor; [|done]. clear -Hother.
        unfold analysis, analyze_project_dependencies, manifest in *.
        repeat case_decide; solve [ reflexivity | exfalso; tauto ].
      + cbn. by rewrite Hfile.
      + rewrite read_error_lines_cons, IH3. unfold read_error_lines. cbn.
        rewrite Hfile. destruct (data e); [done|]. by rewrite decide_False. }
  destruct (Hall _ Hplain) as (H1 & H2 & H3).
  unfold summarize_project_structure. unfold mbind, py_bind at 1.
  rewrite (loop_returns _ _ _ _ _ _ _ out) by
    (try exact H1; intros e He;
     destruct (rglob_relative_to _ _ _ He) as (rel & _ & ->); eauto).
  rewrite H2, H3, app_nil_r. cbn [mret py_ret]. f_equal. f_equal.
  unfold empty_summary, project_summary.
  replace (sorted (list_to_set [] ∪ ∅)) with (@nil string) by done.
  do 5 f_equal.
  assert (Hnone : ∀ l : list entry,
            filter (λ r : string, r ≠ "") (map (λ _, "") l) = []).
  { induction l as [|a l IHl]; [done|].
    change (map (λ _ : entry, "") (a :: l)) with ("" :: map (λ _ : entry, "") l).
    rewrite filter_cons. by rewrite decide_False by auto. }
  by rewrite Hnone.
Qed.

Lemma summarize_plain_files_witness :
  summarize_project_structure Json.loads Xml.fromstring
    {| absolute := false; parts := ["notes"] |}
    (Listing [File "README.md" (ReadOk "hello");
              File "todo.txt" (ReadError "denied")]) []
  = (Return empty_summary, []).
Proof.
  apply (summarize_plain_files Json.loads Xml.fromstring).
  cbn. intros e [<-|[<-|[]]]; (split; [done|]);
    unfold manifest; vm_compute; intuition discriminate.
Defined.

(** X6. A manifest whose content is read and is not empty never gives the
    empty contribution: when its extraction returns, the result is not empty,
    so the file adds a fragment to the dependencies line. *)
Theorem manifest_contributes json_loads ET_fromstring f content r :
  manifest f →
  data f = ReadOk content →
  content ≠ "" →
  analysis json_loads ET_fromstring f = Return r →
  r ≠ "".
Proof.
  intros Hmanifest Hdata Hne. unfold analysis, analyze_project_dependencies.
  assert (Hread : ∀ A (k : option string → py A),
            (read_file_content f ≫= k) [] = k (Some content) []).
  { intros A k. unfold mbind, py_bind. by rewrite (read_ok _ _ _ Hdata). }
  repeat case_decide; try (exfalso; unfold manifest in *; tauto);
    rewrite Hread, (if_content_nonempty _ Hne).
  - destruct (json_loads content) as [value|]; [|by intros [= <-]].
    unfold mbind, py_bind, lift.
    destruct (json_get _ _ _) as [deps|x]; [|done].
    destruct (json_keys deps) as [keys|x]; [|done]. by intros [= <-].
  - unfold mbind, py_bind at 1.
    destruct (for_each _ _ _ _) as [[deps|x] o]; [|done]. by intros [= <-].
  - by intros [= <-].
  - by intros [= <-].
  - destruct (ET_fromstring content) as [root|]; [|by intros [= <-]].
    unfold mbind, py_bind, lift.
    destruct (comprehension _ _) as [packages|x]; [|done]. by intros [= <-].
Qed.

Lemma manifest_contributes_witness :
  "Python dependencies (requirements.txt): ." ≠ "".
Proof.
  apply (manifest_contributes Json.loads Xml.fromstring
           {| path := {| absolute := false; parts := ["app"; "requirements.txt"] |};
              is_file := true; data := ReadOk "# nothing yet" |}
           "# nothing yet");
    [unfold manifest; auto|reflexivity|discriminate|reflexivity].
Defined.

(** X7. A [package.json] whose content is valid JSON of an unexpected shape
    makes the extraction raise [AttributeError], which nothing catches: when
    the document is not an object, and when its [dependencies] member is not
    an object (for instance [null] or a list). *)
Theorem package_json_unexpected_shape json_loads ET_fromstring f content value
    out :
  Path.name (path f) = "package.json" →
  data f = ReadOk content →
  content ≠ "" →
  json_loads content = Some value →
  (is_object value = false →
   analyze_project_dependencies json_loads ET_fromstring f out
   = (Raise AttributeError, out))
  ∧ (∀ members dependencies,
       value = JObject members →
       dict_get "dependencies" members = Some dependencies →
       is_object dependencies = false →
       analyze_project_dependencies json_loads ET_fromstring f out
       = (Raise AttributeError, out)).
Proof.
  intros Hname Hdata Hne Hjson. split.
  - intros Hshape. branch Hname. run.
    rewrite (read_ok _ _ _ Hdata), (if_content_nonempty _ Hne), Hjson.
    by destruct value.
  - intros members dependencies -> Hget Hshape. branch Hname. run.
    rewrite (read_ok _ _ _ Hdata), (if_content_nonempty _ Hne), Hjson.
    cbn. rewrite Hget. cbn. by destruct dependencies.
Qed.

Lemma package_json_unexpected_shape_witness :
  let f text :=
    {| path := {| absolute := false; parts := ["app"; "package.json"] |};
       is_file := true; data := ReadOk text |} in
  analyze_project_dependencies Json.loads Xml.fromstring (f "[1, 2]") []
  = (Raise AttributeError, [])
  ∧ analyze_project_dependencies Json.loads Xml.fromstring
      (f (quoted "{`dependencies`: null}")) []
    = (Raise AttributeError, []).
Proof.
  intros f. split.
  - apply (package_json_unexpected_shape Json.loads Xml.fromstring (f "[1, 2]")
             "[1, 2]" (JArray [JNumber "1"; JNumber "2"]) []);
      try reflexivity. discriminate.
  - eapply (proj2 (package_json_unexpected_shape Json.loads Xml.fromstring
                     (f (quoted "{`dependencies`: null}"))
                     (quoted "{`dependencies`: null}")
                     (JObject [("dependencies", JNull)]) []
                     eq_refl eq_refl ltac:(discriminate) eq_refl));
      reflexivity.
Defined.

(** X8. In a Gemfile a line that does not start with the characters [gem] is
    ignored.  A Gemfile with such a line and the Gemfile without it have the
    same extraction, result or exception, when the Gemfile without it is not
    empty; when it is empty, the Gemfile with the line gives "Ruby
    dependencies (Gemfile): ." and the empty one the empty contribution. *)
Theorem gemfile_ignores_other_lines json_loads ET_fromstring f f' content
    content' before line after out :
  Path.name (path f) = "Gemfile" → Path.name (path f') = "Gemfile" →
  data f = ReadOk content → data f' = ReadOk content' →
  Str.splitlines content = before ++ line :: after →
  Str.splitlines content' = before ++ after →
  Str.startswith "gem" line = false →
  (content' ≠ "" →
   analyze_project_dependencies json_loads ET_fromstring f out
   = analyze_project_dependencies json_loads ET_fromstring f' out)
  ∧ (content' = "" →
     analyze_project_dependencies json_loads ET_fromstring f out
     = (Return "Ruby dependencies (Gemfile): .", out)
     ∧ analyze_project_dependencies json_loads ET_fromstring f' out
       = (Return "", out)).
Proof.
  intros Hname Hname' Hdata Hdata' Hlines Hlines' Hline.
  assert (Hne : content ≠ "").
  { apply splitlines_nonempty. rewrite Hlines. by destruct before. }
  assert (Hrun : analyze_project_dependencies json_loads ET_fromstring f out
                 = (for_each gemfile_line (before ++ after) []
                    ≫= λ dependencies,
                      mret ("Ruby dependencies (Gemfile): "
                            +:+ Str.join ", " dependencies +:+ ".")) out).
  { branch Hname. run.
    rewrite (read_ok _ _ _ Hdata), (if_content_nonempty _ Hne).
    rewrite Hlines, !for_each_app. unfold mbind, py_bind.
    destruct (for_each gemfile_line before [] out) as [[deps|x] o]; [|done].
    cbn [for_each]. unfold mbind, py_bind.
    unfold gemfile_line at 1. rewrite Hline. reflexivity. }
  split.
  - intros Hne'. rewrite Hrun. branch Hname'. run.
    by rewrite (read_ok _ _ _ Hdata'), (if_content_nonempty _ Hne'), Hlines'.
  - intros ->. split.
    + rewrite Hrun. cbn in Hlines'.
      destruct before, after; try discriminate Hlines'. reflexivity.
    + branch Hname'. run. by rewrite (read_ok _ _ _ Hdata').
Qed.

Lemma gemfile_ignores_other_lines_witness :
  let f text :=
    {| path := {| absolute := false; parts := ["app"; "Gemfile"] |};
       is_file := true; data := ReadOk text |} in
  analyze_project_dependencies Json.loads Xml.fromstring
    (f ("gem 'pg'" +:+ Str.newline +:+ "ruby '3.2.2'" +:+ Str.newline
        +:+ "gem 'puma'")) []
  = analyze_project_dependencies Json.loads Xml.fromstring
      (f ("gem 'pg'" +:+ Str.newline +:+ "gem 'puma'")) []
  ∧ analyze_project_dependencies Json.loads Xml.fromstring (f "ruby '3.2.2'") []
    = (Return "Ruby dependencies (Gemfile): .", []).
Proof.
  intros f. split.
  - apply (gemfile_ignores_other_lines Json.loads Xml.fromstring _ _
             ("gem 'pg'" +:+ Str.newline +:+ "ruby '3.2.2'" +:+ Str.newline
              +:+ "gem 'puma'")
             ("gem 'pg'" +:+ Str.newline +:+ "gem 'puma'")
             ["gem 'pg'"] "ruby '3.2.2'" ["gem 'puma'"]);
      try reflexivity. discriminate.
  - apply (gemfile_ignores_other_lines Json.loads Xml.fromstring
             (f "ruby '3.2.2'") (f "") "ruby '3.2.2'" "" [] "ruby '3.2.2'" []
             [] eq_refl eq_refl eq_refl eq_refl eq_refl eq_refl eq_refl).
    reflexivity.
Defined.

(** * Properties of the entry point and of the generators *)

(** ** Splitting at a character *)

Lemma string_app_cons a s t : String a s +:+ t = String a (s +:+ t).
Proof. reflexivity. Qed.

Lemma string_app_empty_r s : s +:+ "" = s.
Proof. induction s as [|a s IH]; [done|]. by rewrite string_app_cons, IH. Qed.

Lemma string_app_assoc s t u : (s +:+ t) +:+ u = s +:+ (t +:+ u).
Proof.
  induction s as [|a s IH]; [done|]. by rewrite !string_app_cons, IH.
Qed.

Lemma rev_app_rev_app a : ∀ cur acc,
  String.rev_app (String.rev_app a cur) acc = String.rev_app cur (a +:+ acc).
Proof.
  induction a as [|c a IH]; intros cur acc; [done|].
  cbn [String.rev_app]. by rewrite IH.
Qed.

Lemma contains_app c s t :
  Text.contains c (s +:+ t) = Text.contains c s || Text.contains c t.
Proof.
  induction s as [|a s IH]; [done|].
  rewrite string_app_cons. cbn. rewrite IH. by destruct (Ascii.eqb a c).
Qed.

Lemma split_on_go_free sep a : ∀ cur rest,
  Text.contains sep a = false →
  Text.split_on_go sep cur (a +:+ rest)
  = Text.split_on_go sep (String.rev_app a cur) rest.
Proof.
  induction a as [|c a IH]; intros cur rest Hfree; [done|].
  cbn in Hfree. apply orb_false_iff in Hfree as [Hc Ha].
  rewrite string_app_cons. cbn. rewrite Hc. by apply IH.
Qed.

(** A piece without separator, followed by a separator, is the first
    element of the split. *)
Lemma split_on_piece sep a rest :
  Text.contains sep a = false →
  Text.split_on sep (a +:+ String sep rest) = a :: Text.split_on sep rest.
Proof.
  intros Hfree. unfold Text.split_on. rewrite split_on_go_free by done.
  cbn. rewrite Ascii.eqb_refl. f_equal.
  unfold String.rev. rewrite rev_app_rev_app. cbn. apply string_app_empty_r.
Qed.

Lemma split_on_last sep a :
  Text.contains sep a = false → Text.split_on sep a = [a].
Proof.
  intros Hfree. unfold Text.split_on.
  rewrite <- (string_app_empty_r a) at 1. rewrite split_on_go_free by done.
  cbn. f_equal. unfold String.rev. rewrite rev_app_rev_app. cbn.
  apply string_app_empty_r.
Qed.

(** Splitting what [join] made gives the pieces back. *)
Lemma split_on_join sep items :
  items ≠ [] →
  Forall (λ item, Text.contains sep item = false) items →
  Text.split_on sep (Str.join (String sep "") items) = items.
Proof.
  intros Hne Hfree. induction Hfree as [|a items Ha Hitems IH]; [done|].
  destruct items as [|b items].
  - cbn. by apply split_on_last.
  - change (Str.join (String sep "") (a :: b :: items))
      with (a +:+ String sep "" +:+ Str.join (String sep "") (b :: items)).
    rewrite string_app_cons. change ("" +:+ ?s) with s.
    rewrite split_on_piece by done. f_equal. by apply IH.
Qed.

(** [split_on] gives at least one piece: its element 0 exists. *)
Lemma split_on_go_head sep s : ∀ cur,
  ∃ first rest, Text.split_on_go sep cur s = first :: rest.
Proof.
  induction s as [|c s IH]; intros cur; cbn; [eauto|].
  destruct (Ascii.eqb c sep); eauto.
Qed.

Lemma env_var_formatted_returns var :
  env_var_formatted var
  = Return (env_var_key var +:+ " for use within the container").
Proof.
  unfold env_var_formatted, env_var_key, item, Text.split_on.
  by destruct (split_on_go_head "=" var "") as (first & rest & ->).
Qed.

Lemma comprehension_total {A B} (f : A → outcome B) (g : A → B) l :
  (∀ x, f x = Return (g x)) → comprehension f l = Return (map g l).
Proof.
  intros Hf. induction l as [|x l IH]; [done|]. cbn. by rewrite Hf, IH.
Qed.

Lemma env_details_of_returns env_file_ env_vars_ :
  env_details_of env_file_ env_vars_
  = Return (env_details_text env_file_ env_vars_).
Proof.
  unfold env_details_of, env_details_text.
  destruct (Str.truthy env_vars_).
  - rewrite (comprehension_total _ _ _ env_var_formatted_returns).
    by destruct (Str.truthy env_file_).
  - destruct (Str.truthy env_file_); [|done].
    by rewrite string_app_empty_r.
Qed.

(** X9. The text printed for [--env-vars] names the keys only: when the
    option is a comma-separated list of [KEY=VALUE] pairs (keys without
    comma or equals sign, values without comma), the text lists each key
    followed by " for use within the container", in order, and no value; it
    is built without exception. *)
Theorem env_details_lists_keys env_file_ pairs :
  pairs ≠ [] →
  Forall (λ kv, Text.contains "," (fst kv) = false
                ∧ Text.contains "=" (fst kv) = false
                ∧ Text.contains "," (snd kv) = false) pairs →
  env_details_of env_file_ (Str.join "," (map assignment pairs))
  = Return ((if Str.truthy env_file_
             then "Add the file " +:+ env_file_
                  +:+ " to the root of the app container, preserving its name. "
             else "")
            +:+ "Include environment variables: "
            +:+ Str.join ", "
                  (map (λ kv, fst kv +:+ " for use within the container") pairs)
            +:+ ".").
Proof.
  intros Hne Hpairs. rewrite env_details_of_returns. unfold env_details_text.
  assert (Htruthy : Str.truthy (Str.join "," (map assignment pairs)) = true).
  { destruct pairs as [|[k v] [|kv pairs]]; [done|..]; cbn;
      unfold assignment; cbn; by destruct k. }
  rewrite Htruthy. do 4 f_equal.
  rewrite split_on_join.
  - rewrite map_map. f_equal. apply map_ext_in. intros [k v] Hin.
    rewrite Forall_forall in Hpairs.
    destruct (Hpairs (k, v) (proj2 (list_elem_of_In _ _) Hin)) as (_ & Hk & _).
    cbn in *. f_equal. unfold env_var_key, assignment. cbn [fst snd].
    change ("=" +:+ v) with (String "=" v).
    by rewrite split_on_piece.
  - by destruct pairs.
  - apply Forall_forall. intros item Hitem.
    apply list_elem_of_In, in_map_iff in Hitem as ([k v] & <- & Hin).
    rewrite Forall_forall in Hpairs.
    destruct (Hpairs (k, v) (proj2 (list_elem_of_In _ _) Hin)) as (Hk & _ & Hv).
    cbn in *. unfold assignment. cbn [fst snd].
    rewrite !contains_app, Hk, Hv. reflexivity.
Qed.

Lemma env_details_lists_keys_witness :
  env_details_of ".env" "DB_PASSWORD=hunter2,PORT=8080"
  = Return ("Add the file .env to the root of the app container, preserving its name. "
            +:+ "Include environment variables: "
            +:+ "DB_PASSWORD for use within the container, "
            +:+ "PORT for use within the container.").
Proof.
  apply (env_details_lists_keys ".env"
           [("DB_PASSWORD", "hunter2"); ("PORT", "8080")]);
    [discriminate|repeat constructor].
Defined.

(** ** Runs of the script *)

Section ScriptFacts.

Variable json_loads : string → option json.
Variable ET_fromstring : string → option element.
Variable disk : PurePath → root_state.
Variable service : list request → request → outcome (list string).

Local Abbreviation summary := (summary_of json_loads ET_fromstring disk).
Local Abbreviation scan := (scan_lines json_loads ET_fromstring disk).
Local Abbreviation generator prompt_of label directory :=
  (summarize_in_script json_loads ET_fromstring disk directory ≫= λ s,
   completions_create service (prompt_of s) ≫= λ choices,
   first_choice choices ≫= λ text,
   print_generated (Str.newline +:+ label +:+ Str.newline) text).

Lemma appends_summarize d root :
  appends (summarize_project_structure json_loads ET_fromstring d root).
Proof.
  unfold summarize_project_structure. apply appends_bind.
  - apply appends_for_each. intros. apply appends_summarize_entry.
  - intros [deps dirs]. apply appends_ret.
Qed.

Lemma summarize_in_script_run d w :
  summarize_in_script json_loads ET_fromstring disk d w =
    (summary d, {| stdout := stdout w ++ scan d; requests := requests w |}).
Proof.
  unfold summarize_in_script, run_py. by rewrite (appends_summarize _ _ (stdout w)).
Qed.

Lemma generator_run prompt_of label d w :
  generator prompt_of label d w =
    match summary d with
    | Raise x =>
        (Raise x, {| stdout := stdout w ++ scan d; requests := requests w |})
    | Return s =>
        let req := completion_request (prompt_of s) in
        match service (requests w) req with
        | Raise x =>
            (Raise x, {| stdout := stdout w ++ scan d;
                         requests := requests w ++ [req] |})
        | Return [] =>
            (Raise IndexError, {| stdout := stdout w ++ scan d;
                                  requests := requests w ++ [req] |})
        | Return (choice :: _) =>
            (Return tt,
             {| stdout := stdout w ++ scan d ++ [generated_line label choice];
                requests := requests w ++ [req] |})
        end
    end.
Proof.
  unfold mbind, io_bind. rewrite summarize_in_script_run.
  destruct (summary d) as [s|x]; [|done].
  unfold completions_create, completion_request. cbn.
  destruct (service _ _) as [[|choice choices]|x]; try done.
  unfold first_choice, print_generated, run_py, print, generated_line.
  unfold mbind, py_bind, mret, py_ret, lift. cbn.
  by rewrite <- app_assoc.
Qed.

Lemma banner_run args w :
  (if Str.truthy (env_file args) || Str.truthy (env_vars args) then
     run_py (lift (env_details_of (env_file args) (env_vars args)))
     ≫= λ env_details,
       run_py (print "Including environment configuration:")
       ≫= λ _, run_py (print env_details)
   else mret tt) w
  = (Return tt, {| stdout := stdout w ++ banner args; requests := requests w |}).
Proof.
  unfold banner. destruct (_ || _).
  - unfold mbind, io_bind, run_py, lift, print. cbn.
    rewrite env_details_of_returns. cbn. by rewrite <- app_assoc.
  - destruct w. cbn. by rewrite app_nil_r.
Qed.

(** The entry point, as the banner followed by the generators. *)
Lemma main_run args w :
  main json_loads ET_fromstring disk service args w =
    match generator
            (λ s, dockerfile_prompt s (env_file args) (env_vars args))
            "Generated Dockerfile:" (project_dir args)
            {| stdout := stdout w ++ banner args; requests := requests w |} with
    | (Return _, w1) =>
        match generator docker_compose_prompt "Generated docker-compose.yml:"
                (project_dir args)
                {| stdout := stdout w1 ++ [separator]; requests := requests w1 |}
        with
        | (Return _, w2) =>
            if ecs args then
              generator ecs_prompt "Generated AWS ECS Fargate task definition:"
                (project_dir args)
                {| stdout := stdout w2 ++ [separator]; requests := requests w2 |}
            else (Return tt, w2)
        | (Raise x, w2) => (Raise x, w2)
        end
    | (Raise x, w1) => (Raise x, w1)
    end.
Proof.
  unfold main. unfold mbind at 1, io_bind at 1. rewrite banner_run.
  unfold generate_dockerfile_with_openai, generate_docker_compose_with_openai,
    generate_ecs_task_definition_with_openai.
  unfold mbind at 1, io_bind at 1. cbn beta.
  destruct ((summarize_in_script _ _ _ _ ≫= _)
              {| stdout := stdout w ++ banner args; requests := requests w |})
    as [[[]|x] w1]; [|done].
  unfold mbind at 1, io_bind at 1. unfold run_py at 1, print at 1. cbn [fst snd].
  unfold mbind at 1, io_bind at 1.
  destruct ((summarize_in_script _ _ _ _ ≫= _)
              {| stdout := stdout w1 ++ [separator]; requests := requests w1 |})
    as [[[]|x] w2]; [|done].
  destruct (ecs args); [|done].
  unfold mbind at 1, io_bind at 1. unfold run_py at 1, print at 1. reflexivity.
Qed.

End ScriptFacts.

(** X10. When the summarization of the project directory raises, the entry
    point raises the same exception before any request is sent to the
    completion service: the requests are unchanged, and only the banner and
    the lines of one summarization are printed. *)
Theorem main_sends_nothing_when_summarization_raises json_loads ET_fromstring
    disk service args w x :
  summary_of json_loads ET_fromstring disk (project_dir args) = Raise x →
  main json_loads ET_fromstring disk service args w
  = (Raise x,
     {| stdout := stdout w ++ banner args
                  ++ scan_lines json_loads ET_fromstring disk (project_dir args);
        requests := requests w |}).
Proof.
  intros Hsummary. rewrite main_run, generator_run, Hsummary. cbn.
  by rewrite <- app_assoc.
Qed.

Lemma main_sends_nothing_when_summarization_raises_witness :
  let disk (_ : PurePath) :=
    Listing [File "Gemfile" (ReadOk "gemspec")] in
  let service (_ : list request) (_ : request) : outcome (list string) :=
    Return ["FROM ruby:3.2"] in
  main Json.loads Xml.fromstring disk service
    {| project_dir := {| absolute := false; parts := ["gem"] |};
       env_file := ""; env_vars := "PORT=8080"; ecs := true |}
    {| stdout := []; requests := [] |}
  = (Raise IndexError,
     {| stdout := ["Including environment configuration:";
                   "Include environment variables: PORT for use within the container."];
        requests := [] |}).
Proof.
  intros disk service.
  apply (main_sends_nothing_when_summarization_raises Json.loads Xml.fromstring
           disk service
           {| project_dir := {| absolute := false; parts := ["gem"] |};
              env_file := ""; env_vars := "PORT=8080"; ecs := true |}
           {| stdout := []; requests := [] |} IndexError).
  reflexivity.
Defined.

(** X11. When the first call of the completion service raises, or gives a
    response without choices, the entry point stops there: it raises (the
    exception of the call, or [IndexError]), exactly one request was sent,
    it is not sent again, and no generated text is printed. *)
Theorem main_stops_at_failed_completion json_loads ET_fromstring disk service
    args w s :
  summary_of json_loads ET_fromstring disk (project_dir args) = Return s →
  let req := completion_request
               (dockerfile_prompt s (env_file args) (env_vars args)) in
  let stopped :=
    {| stdout := stdout w ++ banner args
                 ++ scan_lines json_loads ET_fromstring disk (project_dir args);
       requests := requests w ++ [req] |} in
  (∀ x, service (requests w) req = Raise x →
        main json_loads ET_fromstring disk service args w = (Raise x, stopped))
  ∧ (service (requests w) req = Return [] →
     main json_loads ET_fromstring disk service args w
     = (Raise IndexError, stopped)).
Proof.
  intros Hsummary req stopped. split.
  - intros x Hcall. rewrite main_run, generator_run, Hsummary. cbn.
    fold req. rewrite Hcall. unfold stopped. by rewrite <- app_assoc.
  - intros Hcall. rewrite main_run, generator_run, Hsummary. cbn.
    fold req. rewrite Hcall. unfold stopped. by rewrite <- app_assoc.
Qed.

Lemma main_stops_at_failed_completion_witness :
  let disk (_ : PurePath) :=
    Listing [File "requirements.txt" (ReadOk "flask")] in
  let service (_ : list request) (_ : request) : outcome (list string) :=
    Return [] in
  let args := {| project_dir := {| absolute := false; parts := ["app"] |};
                 env_file := ""; env_vars := ""; ecs := false |} in
  ∃ req,
    main Json.loads Xml.fromstring disk service args
      {| stdout := []; requests := [] |}
    = (Raise IndexError, {| stdout := []; requests := [req] |}).
Proof.
  intros disk service args. eexists.
  apply (main_stops_at_failed_completion Json.loads Xml.fromstring disk service
           args {| stdout := []; requests := [] |}
           (project_summary ""
              "Python dependencies (requirements.txt): flask."));
    reflexivity.
Defined.

(** X12. When the summarization returns and every call of the completion
    service gives a choice, the entry point sends exactly two requests, for
    the Dockerfile and then for docker-compose.yml, and a third one for the
    task definition exactly when [--ecs] is given, each with the summary in
    its prompt and the environment options in the Dockerfile prompt only.
    The project is summarized anew before each request, so the lines of the
    summarization are printed once per request, each time followed by the
    stripped first choice of the response. *)
Theorem main_runs_the_generators json_loads ET_fromstring disk service args w
    s c1 l1 c2 l2 :
  summary_of json_loads ET_fromstring disk (project_dir args) = Return s →
  let scan := scan_lines json_loads ET_fromstring disk (project_dir args) in
  let r1 := completion_request
              (dockerfile_prompt s (env_file args) (env_vars args)) in
  let r2 := completion_request (docker_compose_prompt s) in
  let r3 := completion_request (ecs_prompt s) in
  let printed :=
    stdout w ++ banner args
    ++ scan ++ [generated_line "Generated Dockerfile:" c1]
    ++ [separator]
    ++ scan ++ [generated_line "Generated docker-compose.yml:" c2] in
  service (requests w) r1 = Return (c1 :: l1) →
  service (requests w ++ [r1]) r2 = Return (c2 :: l2) →
  (ecs args = false →
   main json_loads ET_fromstring disk service args w
   = (Return tt, {| stdout := printed; requests := requests w ++ [r1; r2] |}))
  ∧ (ecs args = true → ∀ c3 l3,
     service (requests w ++ [r1; r2]) r3 = Return (c3 :: l3) →
     main json_loads ET_fromstring disk service args w
     = (Return tt,
        {| stdout :=
             printed ++ [separator] ++ scan
             ++ [generated_line "Generated AWS ECS Fargate task definition:" c3];
           requests := requests w ++ [r1; r2; r3] |})).
Proof.
  intros Hsummary scan r1 r2 r3 printed Hcall1 Hcall2.
  assert (Htwo :
    ∀ w1, w1 = {| stdout := printed; requests := requests w ++ [r1; r2] |} →
    main json_loads ET_fromstring disk service args w =
      if ecs args then
        (summarize_in_script json_loads ET_fromstring disk (project_dir args)
         ≫= λ s0, completions_create service (ecs_prompt s0)
         ≫= λ choices, first_choice choices
         ≫= λ text,
            print_generated
              (Str.newline +:+ "Generated AWS ECS Fargate task definition:"
               +:+ Str.newline) text)
          {| stdout := stdout w1 ++ [separator]; requests := requests w1 |}
      else (Return tt, w1)).
  { intros w1 ->. rewrite main_run, generator_run, Hsummary.
    cbn [stdout requests]. fold r1. rewrite Hcall1.
    rewrite generator_run, Hsummary. cbn [stdout requests]. fold r2.
    rewrite Hcall2.
    replace ((stdout w ++ banner args) ++
             scan_lines json_loads ET_fromstring disk (project_dir args) ++
             [generated_line "Generated Dockerfile:" c1])
      with (stdout w ++ banner args ++ scan
            ++ [generated_line "Generated Dockerfile:" c1])
      by (by rewrite <- app_assoc).
    replace ((requests w ++ [r1]) ++ [r2]) with (requests w ++ [r1; r2])
      by (by rewrite <- app_assoc).
    unfold printed. fold scan.
    replace (((stdout w ++ banner args ++ scan ++
                [generated_line "Generated Dockerfile:" c1]) ++ [separator]) ++
             scan ++ [generated_line "Generated docker-compose.yml:" c2])
      with (stdout w ++ banner args ++ scan ++
            [generated_line "Generated Dockerfile:" c1] ++ [separator] ++
            scan ++ [generated_line "Generated docker-compose.yml:" c2])
      by (by rewrite <- !app_assoc).
    reflexivity. }
  split.
  - intros Hecs. rewrite (Htwo _ eq_refl), Hecs. reflexivity.
  - intros Hecs c3 l3 Hcall3. rewrite (Htwo _ eq_refl), Hecs.
    rewrite generator_run, Hsummary. cbn [stdout requests]. fold r3.
    rewrite Hcall3. f_equal. f_equal.
    + fold scan. by rewrite <- !app_assoc.
    + by rewrite <- app_assoc.
Qed.

Lemma main_runs_the_generators_witness :
  let disk (_ : PurePath) :=
    Listing [File "Pipfile" (ReadError "denied");
             File "requirements.txt" (ReadOk "flask")] in
  let service (_ : list request) (_ : request) : outcome (list string) :=
    Return [" FROM python:3.12 "] in
  let args := {| project_dir := {| absolute := false; parts := ["app"] |};
                 env_file := ""; env_vars := ""; ecs := false |} in
  let w := {| stdout := []; requests := [] |} in
  let s := project_summary "" "Python dependencies (requirements.txt): flask." in
  main Json.loads Xml.fromstring disk service args w
  = (Return tt,
     {| stdout :=
          ["Error reading file app/Pipfile: denied";
           generated_line "Generated Dockerfile:" "FROM python:3.12";
           separator;
           "Error reading file app/Pipfile: denied";
           generated_line "Generated docker-compose.yml:" "FROM python:3.12"];
        requests :=
          [completion_request (dockerfile_prompt s "" "");
           completion_request (docker_compose_prompt s)] |}).
Proof.
  intros disk service args w s.
  apply (main_runs_the_generators Json.loads Xml.fromstring disk service args w
           s " FROM python:3.12 " [] " FROM python:3.12 " []);
    reflexivity.
Defined.

(** * The summary and the place of the project *)

Lemma last_app_nonempty {A} (l rel : list A) (x : A) :
  rel ≠ [] → List.last (l ++ rel) x = List.last rel x.
Proof.
  intros Hne. induction l as [|a l IH]; [done|].
  cbn [app]. destruct (l ++ rel) eqn:Heq; [|by rewrite <- IH].
  by destruct l, rel.
Qed.

Lemma relocated_name d d' e e' :
  relocated d d' e e' → Path.name (path e) = Path.name (path e').
Proof.
  intros (_ & _ & rel & [Hne He] & [_ He']). unfold Path.name.
  rewrite He, He'. cbn. by rewrite !last_app_nonempty.
Qed.

(** The outcome of the extraction depends on the name of the file and on
    what reading it does, not on the directory it is in. *)
Lemma analysis_relocated json_loads ET_fromstring d d' e e' :
  relocated d d' e e' →
  analysis json_loads ET_fromstring e = analysis json_loads ET_fromstring e'.
Proof.
  intros Hrel. pose proof (relocated_name _ _ _ _ Hrel) as Hname.
  destruct Hrel as (_ & Hdata & _). unfold analysis.
  destruct (data e) as [text|x] eqn:He.
  - symmetry in Hdata.
    unfold analyze_project_dependencies, Path.suffix. rewrite Hname.
    repeat case_decide; try reflexivity;
      unfold mbind, py_bind;
      by rewrite (read_ok _ _ _ He), (read_ok _ _ _ Hdata).
  - symmetry in Hdata.
    by rewrite (analyze_read_error _ _ _ _ _ He),
               (analyze_read_error _ _ _ _ _ Hdata).
Qed.

Lemma node_entry_relocated d d' n :
  relocated d d' (node_entry d n) (node_entry d' n).
Proof.
  split; [by destruct n|]. split; [by destruct n|].
  exists [node_name n]. split; apply node_entry_under.
Qed.

Lemma relocated_child d d' name e e' :
  relocated (Path.child d name) (Path.child d' name) e e' → relocated d d' e e'.
Proof.
  intros (Hfile & Hdata & rel & He & He'). split; [done|]. split; [done|].
  exists (name :: rel). split; by apply under_child.
Qed.

Lemma below_relocated n : ∀ d d',
  Forall2 (relocated d d') (below d n) (below d' n).
Proof.
  induction n as [name x|name children IH|name] using node_induction;
    intros d d'; cbn; [constructor| |constructor].
  apply Forall2_impl with
    (relocated (Path.child d name) (Path.child d' name));
    [|intros; by eapply relocated_child].
  apply Forall2_app.
  - clear IH. induction children as [|c children IHc]; cbn; constructor;
      [apply node_entry_relocated|apply IHc].
  - induction IH as [|c children Hc _ IHc]; cbn; [constructor|].
    apply Forall2_app; [apply Hc|apply IHc].
Qed.

Lemma rglob_relocated d d' root :
  Forall2 (relocated d d') (rglob d root) (rglob d' root).
Proof.
  destruct root as [| | |children]; cbn; try constructor.
  unfold walk. apply Forall2_app.
  - induction children as [|c children IHc]; cbn; constructor;
      [apply node_entry_relocated|apply IHc].
  - induction children as [|c children IHc]; cbn; [constructor|].
    apply Forall2_app; [apply below_relocated|apply IHc].
Qed.

Lemma loop_relocated json_loads ET_fromstring d d' l l' :
  Forall2 (relocated d d') l l' →
  contributions json_loads ET_fromstring l
  = contributions json_loads ET_fromstring l'
  ∧ recorded_parents d l = recorded_parents d' l'.
Proof.
  induction 1 as [|e e' l l' He _ [IH1 IH2]]; [done|].
  pose proof (analysis_relocated json_loads ET_fromstring _ _ _ _ He) as Ha.
  destruct He as (Hfile & _ & rel & [_ Hp] & [_ Hp']).
  cbn [contributions recorded_parents flat_map].
  change (flat_map ?f l) with (recorded_parents d l).
  change (flat_map ?f l') with (recorded_parents d' l').
  rewrite <- Hfile, Ha, IH1, IH2. split; [done|].
  destruct (is_file e); [done|].
  by rewrite Hp, Hp', !relative_to_under.
Qed.

(** X13. The summary does not depend on where the project directory is: the
    same tree scanned at two root paths gives the same text, or the same
    exception. *)
Theorem summary_independent_of_location json_loads ET_fromstring directory
    directory' root out out' :
  fst (summarize_project_structure json_loads ET_fromstring directory root out)
  = fst (summarize_project_structure json_loads ET_fromstring directory' root
           out').
Proof.
  rewrite !summarize_outcome.
  destruct (loop_relocated json_loads ET_fromstring directory directory' _ _
              (rglob_relocated directory directory' root)) as [-> ->].
  reflexivity.
Qed.
